(** * MixOS kernel/kernel.c: VGA text terminal and Multiboot2 tag walk

    A shallow embedding of [kernel/kernel.c].  Unsigned machine integers
    ([size_t], [uint64_t], [uint32_t], [uint16_t], [uint8_t]) are values of
    [Z] with the wrap-around of every arithmetic operation written out.  The
    four terminal globals form the record [terminal]; every C function that
    touches them becomes a function from [terminal] to [terminal].  Loops
    that scan memory for a terminator or walk the tag list take a fuel
    argument and return [None] when the fuel runs out. *)

From Stdlib Require Import ZArith Lia List String Ascii.
From stdpp Require Import base option list.

Local Open Scope Z_scope.

(** ** Machine integers *)

Definition wrap8 (z : Z) : Z := z mod 2 ^ 8.
Definition wrap16 (z : Z) : Z := z mod 2 ^ 16.
Definition wrap32 (z : Z) : Z := z mod 2 ^ 32.
Definition wrap64 (z : Z) : Z := z mod 2 ^ 64.

(** [for (size_t i = lo; i < hi; i++) body(i)] over a threaded state. *)
Definition for_range {S : Type} (lo hi : nat) (body : Z -> S -> S) (s : S) : S :=
  foldl (fun acc i => body (Z.of_nat i) acc) s (seq lo (hi - lo)).

(** ** VGA text mode *)

Module VGA.

Definition VGA_WIDTH : Z := 80.
Definition VGA_HEIGHT : Z := 25.

Inductive vga_color : Set :=
| VGA_BLACK | VGA_BLUE | VGA_GREEN | VGA_CYAN | VGA_RED | VGA_MAGENTA
| VGA_BROWN | VGA_LIGHT_GREY | VGA_DARK_GREY | VGA_LIGHT_BLUE
| VGA_LIGHT_GREEN | VGA_LIGHT_CYAN | VGA_LIGHT_RED | VGA_LIGHT_MAGENTA
| VGA_YELLOW | VGA_WHITE.

Definition color_code (c : vga_color) : Z :=
  match c with
  | VGA_BLACK => 0 | VGA_BLUE => 1 | VGA_GREEN => 2 | VGA_CYAN => 3
  | VGA_RED => 4 | VGA_MAGENTA => 5 | VGA_BROWN => 6 | VGA_LIGHT_GREY => 7
  | VGA_DARK_GREY => 8 | VGA_LIGHT_BLUE => 9 | VGA_LIGHT_GREEN => 10
  | VGA_LIGHT_CYAN => 11 | VGA_LIGHT_RED => 12 | VGA_LIGHT_MAGENTA => 13
  | VGA_YELLOW => 14 | VGA_WHITE => 15
  end.

(** [return fg | bg << 4;] narrowed to [uint8_t]. *)
Definition vga_entry_color (fg bg : vga_color) : Z :=
  wrap8 (Z.lor (color_code fg) (Z.shiftl (color_code bg) 4)).

(** [return (uint16_t)c | (uint16_t)color << 8;] narrowed to [uint16_t];
    both parameters are converted to 8-bit unsigned on entry. *)
Definition vga_entry (c color : Z) : Z :=
  wrap16 (Z.lor (wrap8 c) (Z.shiftl (wrap8 color) 8)).

(** The terminal globals.  [terminal_buffer] is the 80x25 cell array behind
    the pointer of the same name. *)
Record terminal : Type := Terminal {
  terminal_row : Z;
  terminal_column : Z;
  terminal_color : Z;
  terminal_buffer : list Z
}.

Definition set_buffer (t : terminal) (buf : list Z) : terminal :=
  Terminal (terminal_row t) (terminal_column t) (terminal_color t) buf.

(** [buf[i]] and [buf[i] = v].  An index outside the array is undefined
    behaviour in C; here such a read gives 0 and such a write is dropped. *)
Definition cell_get (buf : list Z) (i : Z) : Z := nth (Z.to_nat i) buf 0.
Definition cell_set (buf : list Z) (i v : Z) : list Z := <[Z.to_nat i := v]> buf.

Definition terminal_initialize (t : terminal) : terminal :=
  let color := vga_entry_color VGA_LIGHT_GREY VGA_BLACK in
  let buf :=
    for_range 0 (Z.to_nat VGA_HEIGHT) (fun y =>
      for_range 0 (Z.to_nat VGA_WIDTH) (fun x b =>
        let index := wrap64 (y * VGA_WIDTH + x) in
        cell_set b index (vga_entry 32 color)))
      (terminal_buffer t) in
  Terminal 0 0 color buf.

Definition terminal_setcolor (color : Z) (t : terminal) : terminal :=
  Terminal (terminal_row t) (terminal_column t) (wrap8 color) (terminal_buffer t).

Definition terminal_putentryat (c color x y : Z) (t : terminal) : terminal :=
  let index := wrap64 (y * VGA_WIDTH + x) in
  set_buffer t (cell_set (terminal_buffer t) index (vga_entry c color)).

Definition scroll_copy (buf : list Z) : list Z :=
  for_range 0 (Z.to_nat (VGA_HEIGHT - 1)) (fun y =>
    for_range 0 (Z.to_nat VGA_WIDTH) (fun x b =>
      let src_index := wrap64 ((y + 1) * VGA_WIDTH + x) in
      let dst_index := wrap64 (y * VGA_WIDTH + x) in
      cell_set b dst_index (cell_get b src_index)))
    buf.

Definition scroll_clear (color : Z) (buf : list Z) : list Z :=
  for_range 0 (Z.to_nat VGA_WIDTH) (fun x b =>
    let index := wrap64 ((VGA_HEIGHT - 1) * VGA_WIDTH + x) in
    cell_set b index (vga_entry 32 color))
    buf.

Definition terminal_scroll (t : terminal) : terminal :=
  set_buffer t (scroll_clear (terminal_color t) (scroll_copy (terminal_buffer t))).

(** [(terminal_column + 4) & ~3] in [size_t] arithmetic: [~3] is the [int]
    -4, converted to [size_t]. *)
Definition tab_stop (col : Z) : Z := Z.land (wrap64 (col + 4)) (2 ^ 64 - 4).

Definition terminal_putchar (c : Z) (t : terminal) : terminal :=
  if c =? 10 then
    let t1 := Terminal (terminal_row t) 0 (terminal_color t) (terminal_buffer t) in
    let row := wrap64 (terminal_row t1 + 1) in
    if row =? VGA_HEIGHT then
      terminal_scroll
        (Terminal (VGA_HEIGHT - 1) (terminal_column t1) (terminal_color t1)
           (terminal_buffer t1))
    else Terminal row (terminal_column t1) (terminal_color t1) (terminal_buffer t1)
  else if c =? 9 then
    let t1 := Terminal (terminal_row t) (tab_stop (terminal_column t))
                (terminal_color t) (terminal_buffer t) in
    if VGA_WIDTH <=? terminal_column t1 then
      let row := wrap64 (terminal_row t1 + 1) in
      if row =? VGA_HEIGHT then
        terminal_scroll
          (Terminal (VGA_HEIGHT - 1) 0 (terminal_color t1) (terminal_buffer t1))
      else Terminal row 0 (terminal_color t1) (terminal_buffer t1)
    else t1
  else
    let t1 := terminal_putentryat c (terminal_color t)
                (terminal_column t) (terminal_row t) t in
    let col := wrap64 (terminal_column t1 + 1) in
    if col =? VGA_WIDTH then
      let row := wrap64 (terminal_row t1 + 1) in
      if row =? VGA_HEIGHT then
        terminal_scroll
          (Terminal (VGA_HEIGHT - 1) 0 (terminal_color t1) (terminal_buffer t1))
      else Terminal row 0 (terminal_color t1) (terminal_buffer t1)
    else Terminal (terminal_row t1) col (terminal_color t1) (terminal_buffer t1).

(** A [const char *] is modelled by what indexing it yields: [data i] is
    [data[i]] as an unsigned byte. *)
Definition cptr : Type := Z -> Z.

Definition terminal_write (data : cptr) (size : Z) (t : terminal) : terminal :=
  for_range 0 (Z.to_nat size) (fun i => terminal_putchar (data i)) t.

(** [while (data[len]) len++;] *)
Fixpoint scan_len (fuel : nat) (data : cptr) (len : Z) : option Z :=
  match fuel with
  | O => None
  | S fuel' =>
      if data len =? 0 then Some len
      else scan_len fuel' data (wrap64 (len + 1))
  end.

Definition terminal_writestring (fuel : nat) (data : cptr) (t : terminal)
  : option terminal :=
  len ← scan_len fuel data 0;
  Some (terminal_write data len t).

End VGA.

(** ** String literals and memory *)

Definition LF : string := String (ascii_of_nat 10) EmptyString.

Definition bytes_of (s : string) : list Z :=
  map (fun a => Z.of_N (N_of_ascii a)) (list_ascii_of_string s).

(** A string literal: its bytes, then the terminating NUL. *)
Definition lit (s : string) : VGA.cptr := fun i => nth (Z.to_nat i) (bytes_of s) 0.

(** ** Multiboot2 information block *)

Module Multiboot.
Import VGA.

(** Physical memory as seen by the kernel: a byte at every 64-bit address. *)
Definition memory : Type := Z -> Z.

Definition load8 (mem : memory) (addr : Z) : Z := wrap8 (mem (wrap64 addr)).

(** A little-endian [uint32_t] load (x86_64). *)
Definition load32 (mem : memory) (addr : Z) : Z :=
  load8 mem addr + 2 ^ 8 * load8 mem (addr + 1)
  + 2 ^ 16 * load8 mem (addr + 2) + 2 ^ 24 * load8 mem (addr + 3).

(** [struct multiboot_tag]: [type] at offset 0, [size] at offset 4;
    [struct multiboot_tag_string]: [string] at offset 8;
    [struct multiboot_tag_basic_meminfo]: [mem_lower] at 8, [mem_upper] at 12. *)
Definition tag_type (mem : memory) (tag : Z) : Z := load32 mem tag.
Definition tag_size (mem : memory) (tag : Z) : Z := load32 mem (tag + 4).
Definition tag_string (mem : memory) (tag : Z) : cptr := fun i => load8 mem (tag + 8 + i).
Definition tag_mem_lower (mem : memory) (tag : Z) : Z := load32 mem (tag + 8).
Definition tag_mem_upper (mem : memory) (tag : Z) : Z := load32 mem (tag + 12).

(** The loop step: the cursor moves by [(tag->size + 7) & ~7] bytes; the sum
    and the mask are computed in [uint32_t], the pointer addition in 64 bits. *)
Definition next_tag (mem : memory) (tag : Z) : Z :=
  wrap64 (tag + Z.land (wrap32 (tag_size mem tag + 7)) (2 ^ 32 - 8)).

(** The [switch (tag->type)] of the loop body. *)
Definition tag_switch (fuel : nat) (mem : memory) (tag : Z) (t : terminal)
  : option terminal :=
  let type := tag_type mem tag in
  if type =? 1 then
    t1 ← terminal_writestring fuel (lit "  Command line: ") t;
    t2 ← terminal_writestring fuel (tag_string mem tag) t1;
    terminal_writestring fuel (lit LF) t2
  else if type =? 2 then
    t1 ← terminal_writestring fuel (lit "  Bootloader: ") t;
    t2 ← terminal_writestring fuel (tag_string mem tag) t1;
    terminal_writestring fuel (lit LF) t2
  else if type =? 4 then
    terminal_writestring fuel (lit ("  Memory detected" ++ LF)) t
  else Some t.

(** The [for] loop from its condition on: [tag] is the cursor. *)
Fixpoint tag_loop (fuel : nat) (mem : memory) (tag : Z) (t : terminal)
  : option terminal :=
  match fuel with
  | O => None
  | S fuel' =>
      if tag_type mem tag =? 0 then Some t
      else
        t1 ← tag_switch (S fuel') mem tag t;
        tag_loop fuel' mem (next_tag mem tag) t1
  end.

Definition parse_multiboot_info (fuel : nat) (mem : memory) (multiboot_addr : Z)
    (t : terminal) : option terminal :=
  t1 ← terminal_writestring fuel (lit "Multiboot information at: 0x") t;
  t2 ← terminal_writestring fuel (lit LF) t1;
  tag_loop fuel mem (wrap64 (multiboot_addr + 8)) t2.

End Multiboot.

(** ** Kernel entry *)

Module Kernel.
Import VGA Multiboot.

(** What an observer of [kernel_main] sees: the arguments of the calls to
    [parse_multiboot_info] made so far, and the terminal once control is at
    the current program point ([None]: a loop before it ran out of fuel). *)
Record run : Type := Run {
  parser_calls : list Z;
  screen : option terminal
}.

Definition exec (f : terminal -> terminal) (r : run) : run :=
  Run (parser_calls r) (f <$> screen r).

Definition writestring (fuel : nat) (s : string) (r : run) : run :=
  Run (parser_calls r) (screen r ≫= terminal_writestring fuel (lit s)).

Definition call_parse_multiboot_info (fuel : nat) (mem : memory) (addr : Z)
    (r : run) : run :=
  match screen r with
  | Some t => Run (parser_calls r ++ [addr]) (parse_multiboot_info fuel mem addr t)
  | None => r
  end.

Definition MULTIBOOT2_MAGIC : Z := 0x36d76289.

(** [kernel_main] up to the [halt] label; the [hlt] loop behind it never
    returns and changes nothing. *)
Definition kernel_main (fuel : nat) (mem : memory) (magic multiboot_addr : Z)
    (t : terminal) : run :=
  let r := Run [] (Some (terminal_initialize t)) in
  let r := exec (terminal_setcolor (vga_entry_color VGA_LIGHT_CYAN VGA_BLACK)) r in
  let r := writestring fuel ("=================================" ++ LF) r in
  let r := writestring fuel ("    MixOS Kernel v0.1.0" ++ LF) r in
  let r := writestring fuel ("=================================" ++ LF ++ LF) r in
  let r := exec (terminal_setcolor (vga_entry_color VGA_LIGHT_GREY VGA_BLACK)) r in
  if negb (magic =? MULTIBOOT2_MAGIC) then
    let r := exec (terminal_setcolor (vga_entry_color VGA_LIGHT_RED VGA_BLACK)) r in
    let r := writestring fuel ("[ERROR] Invalid Multiboot magic number!" ++ LF) r in
    let r := writestring fuel ("System halted." ++ LF) r in
    r
  else
    let r := exec (terminal_setcolor (vga_entry_color VGA_LIGHT_GREEN VGA_BLACK)) r in
    let r := writestring fuel ("[OK] Multiboot2 boot detected" ++ LF) r in
    let r := exec (terminal_setcolor (vga_entry_color VGA_LIGHT_GREY VGA_BLACK)) r in
    let r := writestring fuel (LF ++ "[INFO] Parsing multiboot information..." ++ LF) r in
    let r := call_parse_multiboot_info fuel mem multiboot_addr r in
    let r := writestring fuel (LF ++ "[INFO] Initializing architecture (x86_64)..." ++ LF) r in
    let r := writestring fuel ("[INFO] Initializing memory management..." ++ LF) r in
    let r := writestring fuel ("[INFO] Initializing scheduler..." ++ LF) r in
    let r := writestring fuel ("[INFO] Initializing drivers..." ++ LF) r in
    let r := writestring fuel ("[INFO] Initializing filesystem..." ++ LF) r in
    let r := writestring fuel LF r in
    let r := exec (terminal_setcolor (vga_entry_color VGA_YELLOW VGA_BLACK)) r in
    let r := writestring fuel ("[READY] Kernel initialization complete!" ++ LF) r in
    let r := exec (terminal_setcolor (vga_entry_color VGA_LIGHT_GREY VGA_BLACK)) r in
    let r := writestring fuel (LF ++ "MixOS is now running in kernel mode." ++ LF) r in
    let r := writestring fuel ("Next step: implement userspace and system calls." ++ LF) r in
    r.

End Kernel.

(** ** Concrete memory images *)

(** Memory holding [bytes] from address [base] on and zero elsewhere. *)
Definition image (base : Z) (bytes : list Z) : Multiboot.memory :=
  fun a => if base <=? a then nth (Z.to_nat (a - base)) bytes 0 else 0.

(** The four bytes of a little-endian [uint32_t]. *)
Definition le32 (v : Z) : list Z :=
  [v mod 256; (v / 2 ^ 8) mod 256; (v / 2 ^ 16) mod 256; (v / 2 ^ 24) mod 256].

(** The string printed by a run of [terminal_putchar] calls, as bytes. *)
Definition puts (l : list Z) (t : VGA.terminal) : VGA.terminal :=
  foldl (fun acc c => VGA.terminal_putchar c acc) t l.

(** A blank 80x25 screen, light grey on black, with the cursor at the
    origin: the terminal as [terminal_initialize] leaves it. *)
Definition blank : VGA.terminal :=
  VGA.Terminal 0 0 7 (replicate 2000 (VGA.vga_entry 32 7)).

(** ** Observations used by the statements *)

Section Observations.
Import VGA Multiboot.

(** The cursor bounds of the terminal. *)
Definition cursor_ok (t : terminal) : Prop :=
  0 <= terminal_row t < VGA_HEIGHT /\ 0 <= terminal_column t < VGA_WIDTH.

(** The cell shown at column [x] of row [y]. *)
Definition cell_at (t : terminal) (x y : Z) : Z :=
  cell_get (terminal_buffer t) (y * VGA_WIDTH + x).

(** The first [n] bytes behind a pointer. *)
Definition chars (data : cptr) (n : Z) : list Z :=
  map (fun i => data (Z.of_nat i)) (seq 0 (Z.to_nat n)).

(** The bytes [terminal_writestring] sends to [terminal_putchar]. *)
Definition string_at (fuel : nat) (data : cptr) : option (list Z) :=
  len ← scan_len fuel data 0; Some (chars data len).

(** The bytes printed by [tag_switch], [tag_loop] and
    [parse_multiboot_info]; they follow the three functions line by line. *)
Definition switch_output (fuel : nat) (mem : memory) (tag : Z) : option (list Z) :=
  let type := tag_type mem tag in
  if type =? 1 then
    l1 ← string_at fuel (lit "  Command line: ");
    l2 ← string_at fuel (tag_string mem tag);
    l3 ← string_at fuel (lit LF);
    Some (l1 ++ l2 ++ l3)
  else if type =? 2 then
    l1 ← string_at fuel (lit "  Bootloader: ");
    l2 ← string_at fuel (tag_string mem tag);
    l3 ← string_at fuel (lit LF);
    Some (l1 ++ l2 ++ l3)
  else if type =? 4 then string_at fuel (lit ("  Memory detected" ++ LF))
  else Some [].

Fixpoint loop_output (fuel : nat) (mem : memory) (tag : Z) : option (list Z) :=
  match fuel with
  | O => None
  | S fuel' =>
      if tag_type mem tag =? 0 then Some []
      else
        l1 ← switch_output (S fuel') mem tag;
        l2 ← loop_output fuel' mem (next_tag mem tag);
        Some (l1 ++ l2)
  end.

Definition parse_output (fuel : nat) (mem : memory) (multiboot_addr : Z)
  : option (list Z) :=
  l1 ← string_at fuel (lit "Multiboot information at: 0x");
  l2 ← string_at fuel (lit LF);
  l3 ← loop_output fuel mem (wrap64 (multiboot_addr + 8));
  Some (l1 ++ l2 ++ l3).

(** The cursor of the tag loop after [k] steps. *)
Fixpoint walk (mem : memory) (tag : Z) (k : nat) : Z :=
  match k with
  | O => tag
  | S k' => walk mem (next_tag mem tag) k'
  end.

(** The text in front of a string tag's payload. *)
Definition label (type : Z) : list Z :=
  if type =? 1 then bytes_of "  Command line: " else bytes_of "  Bootloader: ".

(** A literal without embedded NUL. *)
Definition nul_free (s : string) : bool :=
  forallb (fun b => negb (b =? 0)) (bytes_of s).

(** State of the copy loops after [k] cells: the first [k] cells hold what
    was one row below, the others are untouched. *)
Definition copied (buf b : list Z) (k : nat) : Prop :=
  length b = length buf /\
  forall j, nth j b 0 = if (j <? k)%nat then nth (j + 80) buf 0 else nth j buf 0.

End Observations.

(** ** The blocks of the examples *)

Module Blocks.

Definition base : Z := 0x10000.

(** Command line, bootloader name, basic memory info, end tag. *)
Definition boot_block (mem_lower mem_upper : Z) : list Z :=
  le32 80 ++ le32 0
  ++ le32 1 ++ le32 23 ++ bytes_of "root=/dev/sda1" ++ [0; 0]
  ++ le32 2 ++ le32 18 ++ bytes_of "GRUB 2.06" ++ [0; 0; 0; 0; 0; 0; 0]
  ++ le32 4 ++ le32 16 ++ le32 mem_lower ++ le32 mem_upper
  ++ le32 0 ++ le32 8.

Definition boot_report : list Z :=
  bytes_of ("Multiboot information at: 0x" ++ LF
            ++ "  Command line: root=/dev/sda1" ++ LF
            ++ "  Bootloader: GRUB 2.06" ++ LF
            ++ "  Memory detected" ++ LF).

(** Only an end tag. *)
Definition empty_block : list Z := le32 16 ++ le32 0 ++ le32 0 ++ le32 8.

(** A command-line tag of size 10 whose two payload bytes are "AB"; the
    first padding byte is "C", the next one zero. *)
Definition unterminated_block : list Z :=
  le32 32 ++ le32 0
  ++ le32 1 ++ le32 10 ++ bytes_of "AB" ++ bytes_of "C" ++ [0; 0; 0; 0; 0]
  ++ le32 0 ++ le32 8.

(** A command-line tag with size 7, then the eight bytes "HI", 0, 0 and
    a size field of 8, then an end tag. *)
Definition short_block : list Z :=
  le32 32 ++ le32 0
  ++ le32 1 ++ le32 7
  ++ bytes_of "HI" ++ [0; 0] ++ le32 8
  ++ le32 0 ++ le32 8.

(** Declared total size 24: header and one tag of type 5, no end tag.
    Behind the block lie a command-line tag "X" and an end tag. *)
Definition endless_block : list Z :=
  le32 24 ++ le32 0
  ++ le32 5 ++ le32 16 ++ [0; 0; 0; 0; 0; 0; 0; 0].

Definition behind_endless_block : list Z :=
  le32 1 ++ le32 10 ++ bytes_of "X" ++ [0; 0; 0; 0; 0; 0; 0]
  ++ le32 0 ++ le32 8.

(** Declared total size 16: header and one tag of type 5 and size 0. *)
Definition stuck_block : list Z := le32 16 ++ le32 0 ++ le32 5 ++ le32 0.

End Blocks.

(** The screens [kernel_main] passes through. *)

Section Screens.
Import VGA Kernel.

Definition banner_screen (t : terminal) : terminal :=
  terminal_setcolor (vga_entry_color VGA_LIGHT_GREY VGA_BLACK)
    (puts (bytes_of ("=================================" ++ LF ++ LF))
       (puts (bytes_of ("    MixOS Kernel v0.1.0" ++ LF))
          (puts (bytes_of ("=================================" ++ LF))
             (terminal_setcolor (vga_entry_color VGA_LIGHT_CYAN VGA_BLACK)
                (terminal_initialize t))))).

Definition error_screen (t : terminal) : terminal :=
  puts (bytes_of ("System halted." ++ LF))
    (puts (bytes_of ("[ERROR] Invalid Multiboot magic number!" ++ LF))
       (terminal_setcolor (vga_entry_color VGA_LIGHT_RED VGA_BLACK)
          (banner_screen t))).

Definition ok_screen (t : terminal) : terminal :=
  puts (bytes_of (LF ++ "[INFO] Parsing multiboot information..." ++ LF))
    (terminal_setcolor (vga_entry_color VGA_LIGHT_GREY VGA_BLACK)
       (puts (bytes_of ("[OK] Multiboot2 boot detected" ++ LF))
          (terminal_setcolor (vga_entry_color VGA_LIGHT_GREEN VGA_BLACK)
             (banner_screen t)))).

Definition report_screen (t : terminal) : terminal :=
  puts (bytes_of ("Next step: implement userspace and system calls." ++ LF))
    (puts (bytes_of (LF ++ "MixOS is now running in kernel mode." ++ LF))
       (terminal_setcolor (vga_entry_color VGA_LIGHT_GREY VGA_BLACK)
          (puts (bytes_of ("[READY] Kernel initialization complete!" ++ LF))
             (terminal_setcolor (vga_entry_color VGA_YELLOW VGA_BLACK)
                (puts (bytes_of LF)
                   (puts (bytes_of ("[INFO] Initializing filesystem..." ++ LF))
                      (puts (bytes_of ("[INFO] Initializing drivers..." ++ LF))
                         (puts (bytes_of ("[INFO] Initializing scheduler..." ++ LF))
                            (puts (bytes_of ("[INFO] Initializing memory management..." ++ LF))
                               (puts (bytes_of (LF ++ "[INFO] Initializing architecture (x86_64)..." ++ LF))
                                  t)))))))))).

End Screens.

(** ** Library functions of the kernel *)

Module Lib.
Import VGA Multiboot.

(** [strlen]: the loop is the one of [terminal_writestring]. *)
Definition strlen (fuel : nat) (str : cptr) : option Z := scan_len fuel str 0.

(** [strcmp]: both pointers advance together, [i] is their common offset.
    The result is the difference of the two bytes read as [unsigned char],
    an [int]. *)
Fixpoint strcmp_loop (fuel : nat) (s1 s2 : cptr) (i : Z) : option Z :=
  match fuel with
  | O => None
  | S fuel' =>
      if negb (s1 i =? 0) && (s1 i =? s2 i)
      then strcmp_loop fuel' s1 s2 (i + 1)
      else Some (s1 i - s2 i)
  end.

Definition strcmp (fuel : nat) (s1 s2 : cptr) : option Z := strcmp_loop fuel s1 s2 0.

(** A byte store [p[i] = v] through a [uint8_t] pointer. *)
Definition store8 (mem : memory) (addr v : Z) : memory :=
  fun a => if a =? wrap64 addr then wrap8 v else mem a.

(** [memcpy]: bytes are copied one by one, lowest address first; the value
    returned is [dest]. *)
Definition memcpy (dest src n : Z) (mem : memory) : memory :=
  for_range 0 (Z.to_nat n) (fun i m => store8 m (dest + i) (load8 m (src + i))) mem.

(** [memset]: every byte receives [(uint8_t)c]; the value returned is [s]. *)
Definition memset (s c n : Z) (mem : memory) : memory :=
  for_range 0 (Z.to_nat n) (fun i m => store8 m (s + i) c) mem.

End Lib.

(** A byte that [terminal_putchar] paints: neither newline nor tab. *)
Definition printable (c : Z) : Prop := c <> 10 /\ c <> 9.

(** ** Invariants of the loops and of the screen *)

Section Invariants.
Import VGA Kernel.

(** State of the clearing loops after [k] cells. *)
Definition cleared_to (v : Z) (buf b : list Z) (k : nat) : Prop :=
  length b = length buf /\
  forall j, nth j b 0 = if (j <? k)%nat then v else nth j buf 0.



End Invariants.

(** * Proofs *)

(** ** Loops *)

Lemma for_range_extend {S : Type} (lo n : nat) (body : Z -> S -> S) (s : S) :
  for_range lo (lo + Datatypes.S n) body s
  = body (Z.of_nat (lo + n)) (for_range lo (lo + n) body s).
Proof.
  unfold for_range.
  replace (lo + Datatypes.S n - lo)%nat with (Datatypes.S n) by lia.
  replace (lo + n - lo)%nat with n by lia.
  rewrite seq_S, foldl_app. reflexivity.
Qed.

(** Invariant rule of the counted loop: [P i] holds before iteration [i]. *)
Lemma for_range_ind {S : Type} (P : nat -> S -> Prop) (lo hi : nat)
    (body : Z -> S -> S) (s : S) :
  (lo <= hi)%nat ->
  P lo s ->
  (forall i a, (lo <= i < hi)%nat -> P i a -> P (Datatypes.S i) (body (Z.of_nat i) a)) ->
  P hi (for_range lo hi body s).
Proof.
  intros Hle H0 Hstep.
  assert (Haux : forall n, (lo + n <= hi)%nat ->
                           P (lo + n)%nat (for_range lo (lo + n) body s)).
  { induction n as [|n IH]; intros Hn.
    - rewrite Nat.add_0_r. unfold for_range.
      rewrite Nat.sub_diag. exact H0.
    - rewrite for_range_extend.
      replace (lo + Datatypes.S n)%nat with (Datatypes.S (lo + n)) by lia.
      apply Hstep; [lia | apply IH; lia]. }
  replace hi with (lo + (hi - lo))%nat by lia.
  apply Haux. lia.
Qed.

Lemma wrap64_small (z : Z) : 0 <= z < 2 ^ 64 -> wrap64 z = z.
Proof. intros H. unfold wrap64. apply Z.mod_small. exact H. Qed.

Lemma tab_stop_nonneg (col : Z) : 0 <= VGA.tab_stop col.
Proof.
  unfold VGA.tab_stop. apply Z.land_nonneg. left.
  unfold wrap64. apply Z.mod_pos_bound. lia.
Qed.

(** ** Cursor *)

Section Cursor.
Import VGA.

Lemma scroll_row (t : terminal) : terminal_row (terminal_scroll t) = terminal_row t.
Proof. reflexivity. Qed.

Lemma scroll_column (t : terminal) :
  terminal_column (terminal_scroll t) = terminal_column t.
Proof. reflexivity. Qed.

Lemma scroll_color (t : terminal) :
  terminal_color (terminal_scroll t) = terminal_color t.
Proof. reflexivity. Qed.

Lemma putchar_cursor_ok (c : Z) (t : terminal) :
  cursor_ok t -> cursor_ok (terminal_putchar c t).
Proof.
  unfold cursor_ok, terminal_putchar, VGA_HEIGHT, VGA_WIDTH.
  intros [Hr Hc].
  assert (Hrow : wrap64 (terminal_row t + 1) = terminal_row t + 1)
    by (apply wrap64_small; lia).
  assert (Hcol : wrap64 (terminal_column t + 1) = terminal_column t + 1)
    by (apply wrap64_small; lia).
  pose proof (tab_stop_nonneg (terminal_column t)) as Htab.
  cbn [terminal_row terminal_column terminal_color terminal_buffer
       terminal_putentryat set_buffer].
  rewrite Hrow, Hcol.
  repeat match goal with
         | |- context [if ?b then _ else _] => destruct b eqn:?
         end;
    cbn [terminal_row terminal_column terminal_scroll set_buffer]; lia.
Qed.

Lemma putchar_color (c : Z) (t : terminal) :
  terminal_color (terminal_putchar c t) = terminal_color t.
Proof.
  unfold terminal_putchar.
  repeat match goal with
         | |- context [if ?b then _ else _] => destruct b eqn:?
         end; reflexivity.
Qed.

Lemma write_cursor_ok (data : cptr) (size : Z) (t : terminal) :
  cursor_ok t -> cursor_ok (terminal_write data size t).
Proof.
  intros H. unfold terminal_write.
  apply (for_range_ind (fun _ a => cursor_ok a)); [lia | exact H |].
  intros i a _ Ha. apply putchar_cursor_ok, Ha.
Qed.

End Cursor.

Lemma initialize_gives_blank :
  VGA.terminal_initialize (VGA.Terminal 24 79 0 (replicate 2000 0)) = blank.
Proof. vm_compute. reflexivity. Qed.

(** ** Scanning for the terminator *)

Section Scan.
Import VGA.

Lemma scan_len_first (fuel : nat) (data : cptr) (n : Z) :
  forall k, 0 <= k <= n -> n < 2 ^ 64 ->
  (forall i, k <= i < n -> data i <> 0) -> data n = 0 ->
  (Z.to_nat (n - k) < fuel)%nat ->
  scan_len fuel data k = Some n.
Proof.
  induction fuel as [|fuel IH]; intros k Hk Hn Hnz Hz Hfuel; [lia|].
  cbn [scan_len]. destruct (data k =? 0) eqn:E.
  - apply Z.eqb_eq in E. destruct (Z.eq_dec k n) as [->|Hne]; [reflexivity|].
    exfalso. apply (Hnz k); [lia | exact E].
  - apply Z.eqb_neq in E.
    assert (k <> n) by (intros ->; contradiction).
    rewrite wrap64_small by lia.
    apply IH; try lia; try exact Hz. intros i Hi; apply Hnz; lia.
Qed.

Lemma scan_len_total (fuel : nat) (data : cptr) (m : Z) :
  forall k, 0 <= k <= m -> m < 2 ^ 64 -> data m = 0 ->
  (Z.to_nat (m - k) < fuel)%nat ->
  exists n, scan_len fuel data k = Some n.
Proof.
  induction fuel as [|fuel IH]; intros k Hk Hm Hz Hfuel; [lia|].
  cbn [scan_len]. destruct (data k =? 0) eqn:E; [eauto|].
  apply Z.eqb_neq in E.
  assert (k <> m) by (intros ->; contradiction).
  rewrite wrap64_small by lia. apply IH; lia.
Qed.

Lemma scan_len_mono (fuel fuel' : nat) (data : cptr) :
  (fuel <= fuel')%nat ->
  forall k n, scan_len fuel data k = Some n -> scan_len fuel' data k = Some n.
Proof.
  revert fuel'. induction fuel as [|fuel IH]; intros fuel' Hle k n H; [discriminate|].
  destruct fuel' as [|fuel']; [lia|].
  cbn [scan_len] in *. destruct (data k =? 0); [exact H|].
  apply IH; [lia | exact H].
Qed.

End Scan.

(** ** Claims about the terminal cursor *)

Section CursorClaims.
Import VGA.

(** C5: the cursor bounds [0 <= terminal_row < 25] and
    [0 <= terminal_column < 80] hold after [terminal_initialize] and are
    preserved by [terminal_putchar] with any byte, [terminal_write],
    [terminal_writestring] (which returns whenever the string has a
    terminator within the fuel), [terminal_setcolor] and [terminal_scroll]. *)
Theorem cursor_bounds_invariant :
  (forall t0, cursor_ok (terminal_initialize t0)) /\
  (forall t, cursor_ok t ->
     (forall c, cursor_ok (terminal_putchar c t)) /\
     (forall data size, cursor_ok (terminal_write data size t)) /\
     (forall fuel data t',
         terminal_writestring fuel data t = Some t' -> cursor_ok t') /\
     (forall fuel data m,
         0 <= m < 2 ^ 64 -> data m = 0 -> (Z.to_nat m < fuel)%nat ->
         exists t', terminal_writestring fuel data t = Some t' /\ cursor_ok t') /\
     (forall color, cursor_ok (terminal_setcolor color t)) /\
     cursor_ok (terminal_scroll t)).
Proof.
  split.
  - intros t0. unfold cursor_ok, terminal_initialize, VGA_HEIGHT, VGA_WIDTH.
    cbn [terminal_row terminal_column]. lia.
  - intros t Ht. split; [|split; [|split; [|split; [|split]]]].
    + intros c. apply putchar_cursor_ok, Ht.
    + intros data size. apply write_cursor_ok, Ht.
    + intros fuel data t' H. unfold terminal_writestring in H.
      destruct (scan_len fuel data 0) as [len|]; [|discriminate].
      cbn in H. injection H as <-.
      apply write_cursor_ok, Ht.
    + intros fuel data m Hm Hz Hfuel.
      destruct (scan_len_total fuel data m 0) as [n Hn];
        [lia | lia | exact Hz | rewrite Z.sub_0_r; exact Hfuel |].
      exists (terminal_write data n t). split.
      * unfold terminal_writestring. rewrite Hn. reflexivity.
      * apply write_cursor_ok, Ht.
    + intros color. exact Ht.
    + exact Ht.
Qed.

(** C7: a tab sets the column to [(col + 4) & ~3]; when that reaches
    [VGA_WIDTH] the effect is that of a newline.  From column 5 the cursor
    moves to column 8, from column 0 to column 4, from column 78 to column 0
    of the next row (after a scroll when the row was the last one). *)
Theorem tab_advances_to_tab_stop :
  (forall t,
      terminal_putchar 9 t
      = if VGA_WIDTH <=? tab_stop (terminal_column t)
        then terminal_putchar 10 t
        else Terminal (terminal_row t) (tab_stop (terminal_column t))
               (terminal_color t) (terminal_buffer t)) /\
  (forall r color buf,
      terminal_putchar 9 (Terminal r 5 color buf) = Terminal r 8 color buf /\
      terminal_putchar 9 (Terminal r 0 color buf) = Terminal r 4 color buf /\
      terminal_putchar 9 (Terminal r 78 color buf)
      = terminal_putchar 10 (Terminal r 78 color buf) /\
      terminal_putchar 9 (Terminal r 78 color buf)
      = if wrap64 (r + 1) =? VGA_HEIGHT
        then terminal_scroll (Terminal (VGA_HEIGHT - 1) 0 color buf)
        else Terminal (wrap64 (r + 1)) 0 color buf).
Proof.
  split.
  - intros t. unfold terminal_putchar. cbn [Z.eqb Pos.eqb].
    cbn [terminal_row terminal_column terminal_color terminal_buffer].
    destruct (VGA_WIDTH <=? tab_stop (terminal_column t)); reflexivity.
  - intros r color buf. repeat split.
Qed.

(** C10: when [terminal_row + 1 < VGA_HEIGHT], a newline leaves every cell
    of the buffer as it was, and so does a tab whose tab stop is below
    [VGA_WIDTH]: they move only the cursor. *)
Theorem control_chars_paint_nothing (t : terminal) :
  0 <= terminal_row t -> terminal_row t + 1 < VGA_HEIGHT ->
  terminal_buffer (terminal_putchar 10 t) = terminal_buffer t /\
  (tab_stop (terminal_column t) < VGA_WIDTH ->
   terminal_buffer (terminal_putchar 9 t) = terminal_buffer t) /\
  (forall x y, cell_at (terminal_putchar 10 t) x y = cell_at t x y).
Proof.
  unfold VGA_HEIGHT. intros H0 Hrow.
  assert (Hnl : terminal_buffer (terminal_putchar 10 t) = terminal_buffer t).
  { unfold terminal_putchar. cbn [Z.eqb Pos.eqb].
    cbn [terminal_row terminal_column terminal_color terminal_buffer].
    rewrite wrap64_small by lia.
    destruct (terminal_row t + 1 =? VGA_HEIGHT) eqn:E.
    - apply Z.eqb_eq in E. unfold VGA_HEIGHT in E. lia.
    - reflexivity. }
  split; [exact Hnl | split].
  - intros Htab. unfold terminal_putchar. cbn [Z.eqb Pos.eqb].
    cbn [terminal_row terminal_column terminal_color terminal_buffer].
    destruct (VGA_WIDTH <=? tab_stop (terminal_column t)) eqn:E.
    + apply Z.leb_le in E. lia.
    + reflexivity.
  - intros x y. unfold cell_at. rewrite Hnl. reflexivity.
Qed.

Lemma control_chars_paint_nothing_witness :
  terminal_buffer (terminal_putchar 10 blank) = terminal_buffer blank.
Proof.
  refine (proj1 (control_chars_paint_nothing blank _ _));
    vm_compute; [discriminate | reflexivity].
Defined.

Lemma cursor_bounds_invariant_witness :
  cursor_ok blank /\ cursor_ok (terminal_putchar 65 blank).
Proof.
  assert (H : cursor_ok blank).
  { unfold cursor_ok. split; split; vm_compute; first [discriminate | reflexivity]. }
  split; [exact H|].
  exact (proj1 (proj2 cursor_bounds_invariant blank H) 65).
Defined.

End CursorClaims.

(** ** Scrolling *)

Section Scroll.
Import VGA.

Lemma nth_insert (l : list Z) (i j : nat) (v : Z) :
  nth j (<[i:=v]> l) 0
  = if decide (i = j /\ (i < length l)%nat) then v else nth j l 0.
Proof.
  rewrite !nth_lookup, list_lookup_insert.
  destruct (decide (i = j /\ (i < length l)%nat)); reflexivity.
Qed.

Ltac solve_ltb :=
  repeat match goal with
         | |- context [(?a <? ?b)%nat] => destruct (Nat.ltb_spec a b)
         | |- context [(?a <=? ?b)%nat] => destruct (Nat.leb_spec a b)
         end;
  first [lia | reflexivity | f_equal; lia].

Lemma scroll_copy_row (buf b : list Z) (y : nat) :
  length buf = 2000%nat -> (y < 24)%nat ->
  copied buf b (y * 80) ->
  copied buf
    (for_range 0 (Z.to_nat VGA_WIDTH) (fun x b =>
       cell_set b (wrap64 (Z.of_nat y * VGA_WIDTH + x))
         (cell_get b (wrap64 ((Z.of_nat y + 1) * VGA_WIDTH + x)))) b)
    (Datatypes.S y * 80).
Proof.
  intros Hlen Hy Hb. unfold VGA_WIDTH.
  replace (Datatypes.S y * 80)%nat with (y * 80 + Z.to_nat 80)%nat by lia.
  apply (for_range_ind (fun x a => copied buf a (y * 80 + x))); [lia | |].
  - rewrite Nat.add_0_r. exact Hb.
  - intros x a Hx [Hla Ha]. unfold cell_set, cell_get.
    rewrite !wrap64_small by lia.
    replace (Z.to_nat (Z.of_nat y * 80 + Z.of_nat x)) with (y * 80 + x)%nat by lia.
    replace (Z.to_nat ((Z.of_nat y + 1) * 80 + Z.of_nat x))
      with (y * 80 + x + 80)%nat by lia.
    split; [rewrite length_insert; exact Hla|].
    intros j. rewrite nth_insert, !Ha.
    destruct (decide (_ /\ _)) as [[Heq _]|Hn].
    + subst j. solve_ltb.
    + assert (j <> y * 80 + x)%nat by (intros ->; apply Hn; split; lia).
      solve_ltb.
Qed.

Lemma scroll_copy_spec (buf : list Z) :
  length buf = 2000%nat -> copied buf (scroll_copy buf) 1920.
Proof.
  intros Hlen. unfold scroll_copy, VGA_HEIGHT.
  change 1920%nat with (Z.to_nat (25 - 1) * 80)%nat.
  apply (for_range_ind (fun y a => copied buf a (y * 80))); [lia | |].
  - split; [reflexivity|]. intros j. reflexivity.
  - intros y a Hy Ha. apply scroll_copy_row; [exact Hlen | lia | exact Ha].
Qed.

Lemma scroll_clear_spec (color : Z) (buf : list Z) :
  length buf = 2000%nat ->
  length (scroll_clear color buf) = 2000%nat /\
  forall j, nth j (scroll_clear color buf) 0
            = if (1920 <=? j)%nat then
                if (j <? 2000)%nat then vga_entry 32 color else nth j buf 0
              else nth j buf 0.
Proof.
  intros Hlen. unfold scroll_clear, VGA_HEIGHT, VGA_WIDTH.
  assert (H : length (for_range 0 (Z.to_nat 80) (fun x b =>
                cell_set b (wrap64 ((25 - 1) * 80 + x)) (vga_entry 32 color)) buf)
              = 2000%nat /\
              forall j, nth j (for_range 0 (Z.to_nat 80) (fun x b =>
                cell_set b (wrap64 ((25 - 1) * 80 + x)) (vga_entry 32 color)) buf) 0
                = if (1920 <=? j)%nat then
                    if (j <? 1920 + Z.to_nat 80)%nat then vga_entry 32 color
                    else nth j buf 0
                  else nth j buf 0).
  { apply (for_range_ind (fun x a =>
      length a = 2000%nat /\
      forall j, nth j a 0 = if (1920 <=? j)%nat then
                              if (j <? 1920 + x)%nat then vga_entry 32 color
                              else nth j buf 0
                            else nth j buf 0)); [lia | |].
    - split; [exact Hlen|]. intros j. solve_ltb.
    - intros x a Hx [Hla Ha]. unfold cell_set.
      rewrite wrap64_small by lia.
      replace (Z.to_nat ((25 - 1) * 80 + Z.of_nat x)) with (1920 + x)%nat by lia.
      split; [rewrite length_insert; exact Hla|].
      intros j. rewrite nth_insert, !Ha.
      destruct (decide (_ /\ _)) as [[Heq _]|Hn].
      + subst j. solve_ltb.
      + assert (j <> 1920 + x)%nat by (intros ->; apply Hn; split; lia).
        solve_ltb. }
  exact H.
Qed.

(** C6: [terminal_scroll] copies the cell at [(x, y+1)] into [(x, y)] for
    every row [y] in [0..VGA_HEIGHT-2] and every column [x], fills the last
    row with [(space, terminal_color)], and leaves cursor and colour alone;
    from the last row a newline scrolls, and after any character the cursor
    row is still [VGA_HEIGHT - 1]. *)
Theorem scroll_moves_rows_up (t : terminal) :
  length (terminal_buffer t) = 2000%nat ->
  (forall x y, 0 <= x < VGA_WIDTH -> 0 <= y < VGA_HEIGHT - 1 ->
     cell_at (terminal_scroll t) x y = cell_at t x (y + 1)) /\
  (forall x, 0 <= x < VGA_WIDTH ->
     cell_at (terminal_scroll t) x (VGA_HEIGHT - 1)
     = vga_entry 32 (terminal_color t)) /\
  length (terminal_buffer (terminal_scroll t)) = 2000%nat /\
  terminal_row (terminal_scroll t) = terminal_row t /\
  terminal_column (terminal_scroll t) = terminal_column t /\
  terminal_color (terminal_scroll t) = terminal_color t /\
  (terminal_row t = VGA_HEIGHT - 1 ->
     terminal_putchar 10 t
     = terminal_scroll (Terminal (VGA_HEIGHT - 1) 0 (terminal_color t)
                          (terminal_buffer t)) /\
     forall c, terminal_row (terminal_putchar c t) = VGA_HEIGHT - 1).
Proof.
  intros Hlen.
  destruct (scroll_copy_spec (terminal_buffer t) Hlen) as [Hcl Hc].
  rewrite Hlen in Hcl.
  destruct (scroll_clear_spec (terminal_color t) _ Hcl) as [Hfl Hf].
  unfold cell_at, cell_get, VGA_WIDTH, VGA_HEIGHT.
  cbn [terminal_scroll set_buffer terminal_buffer terminal_row terminal_column
       terminal_color].
  split; [|split; [|split; [|split; [|split; [|split]]]]];
    try reflexivity; try exact Hfl.
  - intros x y Hx Hy. rewrite Hf, Hc.
    destruct (Nat.leb_spec 1920 (Z.to_nat (y * 80 + x))); [lia|].
    destruct (Nat.ltb_spec (Z.to_nat (y * 80 + x)) 1920); [|lia].
    f_equal. lia.
  - intros x Hx. rewrite Hf.
    destruct (Nat.leb_spec 1920 (Z.to_nat ((25 - 1) * 80 + x))); [|lia].
    destruct (Nat.ltb_spec (Z.to_nat ((25 - 1) * 80 + x)) 2000); [|lia].
    reflexivity.
  - intros Hrow. split.
    + unfold terminal_putchar. cbn [Z.eqb Pos.eqb].
      cbn [terminal_row terminal_column terminal_color terminal_buffer].
      rewrite Hrow. reflexivity.
    + intros c. unfold terminal_putchar.
      cbn [terminal_row terminal_column terminal_color terminal_buffer
           terminal_putentryat set_buffer].
      rewrite Hrow. change (wrap64 (25 - 1 + 1) =? VGA_HEIGHT) with true.
      repeat match goal with
             | |- context [if ?b then _ else _] => destruct b eqn:?
             end; reflexivity.
Qed.

Lemma scroll_moves_rows_up_witness :
  length (terminal_buffer (terminal_putchar 65 blank)) = 2000%nat /\
  forall x y, 0 <= x < VGA_WIDTH -> 0 <= y < VGA_HEIGHT - 1 ->
    cell_at (terminal_scroll (terminal_putchar 65 blank)) x y
    = cell_at (terminal_putchar 65 blank) x (y + 1).
Proof.
  assert (H : length (terminal_buffer (terminal_putchar 65 blank)) = 2000%nat)
    by (vm_compute; reflexivity).
  split; [exact H|].
  exact (proj1 (scroll_moves_rows_up (terminal_putchar 65 blank) H)).
Defined.

End Scroll.

(** ** What the parser prints *)

Section Output.
Import VGA Multiboot.

Lemma puts_app (l k : list Z) (t : terminal) : puts (l ++ k) t = puts k (puts l t).
Proof. unfold puts. apply foldl_app. Qed.

Lemma puts_color (l : list Z) (t : terminal) :
  terminal_color (puts l t) = terminal_color t.
Proof.
  revert t. induction l as [|c l IH]; intros t; [reflexivity|].
  cbn [puts foldl]. change (terminal_color (puts l (terminal_putchar c t)) = terminal_color t).
  rewrite IH. apply putchar_color.
Qed.

Lemma puts_cursor_ok (l : list Z) (t : terminal) :
  cursor_ok t -> cursor_ok (puts l t).
Proof.
  revert t. induction l as [|c l IH]; intros t H; [exact H|].
  change (puts (c :: l) t) with (puts l (terminal_putchar c t)).
  apply IH, putchar_cursor_ok, H.
Qed.

(** The cursor never moves up: a row advance is the only change of the row,
    and in the last row it is replaced by a scroll. *)
Lemma putchar_row_mono (c : Z) (t : terminal) :
  cursor_ok t -> terminal_row t <= terminal_row (terminal_putchar c t).
Proof.
  unfold cursor_ok, terminal_putchar, VGA_HEIGHT, VGA_WIDTH.
  intros [Hr Hc].
  assert (Hrow : wrap64 (terminal_row t + 1) = terminal_row t + 1)
    by (apply wrap64_small; lia).
  cbn [terminal_row terminal_column terminal_color terminal_buffer
       terminal_putentryat set_buffer].
  rewrite Hrow.
  repeat match goal with
         | |- context [if ?b then _ else _] => destruct b eqn:?
         end;
    cbn [terminal_row terminal_scroll set_buffer];
    try lia;
    match goal with
    | H : (_ =? 25) = true |- _ => apply Z.eqb_eq in H; lia
    end.
Qed.

Lemma puts_row_mono (l : list Z) (t : terminal) :
  cursor_ok t -> terminal_row t <= terminal_row (puts l t).
Proof.
  revert t. induction l as [|c l IH]; intros t H; [cbn; lia|].
  change (puts (c :: l) t) with (puts l (terminal_putchar c t)).
  pose proof (putchar_row_mono c t H).
  pose proof (IH (terminal_putchar c t) (putchar_cursor_ok c t H)). lia.
Qed.

Lemma newline_advances_row (t : terminal) :
  cursor_ok t -> terminal_row t < VGA_HEIGHT - 1 ->
  terminal_row (terminal_putchar 10 t) = terminal_row t + 1.
Proof.
  unfold cursor_ok, VGA_HEIGHT, VGA_WIDTH. intros [Hr Hc] Hlast.
  unfold terminal_putchar. cbn [Z.eqb Pos.eqb].
  cbn [terminal_row terminal_column terminal_color terminal_buffer].
  rewrite wrap64_small by lia.
  destruct (Z.eqb_spec (terminal_row t + 1) VGA_HEIGHT) as [E|_].
  - unfold VGA_HEIGHT in E. lia.
  - reflexivity.
Qed.

Lemma terminal_write_puts (data : cptr) (n : Z) (t : terminal) :
  terminal_write data n t = puts (chars data n) t.
Proof.
  unfold terminal_write, for_range, puts, chars. rewrite Nat.sub_0_r.
  generalize (seq 0 (Z.to_nat n)) as l. intros l. revert t.
  induction l as [|i l IH]; intros t; [reflexivity|].
  cbn [foldl map]. apply IH.
Qed.

Lemma writestring_string_at (fuel : nat) (data : cptr) (t : terminal) :
  terminal_writestring fuel data t = (fun l => puts l t) <$> string_at fuel data.
Proof.
  unfold terminal_writestring, string_at.
  destruct (scan_len fuel data 0) as [len|]; [|reflexivity].
  cbn. rewrite terminal_write_puts. reflexivity.
Qed.

Lemma switch_output_correct (fuel : nat) (mem : memory) (tag : Z) (t : terminal) :
  tag_switch fuel mem tag t = (fun l => puts l t) <$> switch_output fuel mem tag.
Proof.
  unfold tag_switch, switch_output. rewrite !writestring_string_at.
  destruct (tag_type mem tag =? 1); [|destruct (tag_type mem tag =? 2);
    [|destruct (tag_type mem tag =? 4); [reflexivity | reflexivity]]].
  - destruct (string_at fuel (lit "  Command line: ")) as [l1|]; [|reflexivity].
    cbn. rewrite writestring_string_at.
    destruct (string_at fuel (tag_string mem tag)) as [l2|]; [|reflexivity].
    cbn. rewrite writestring_string_at.
    destruct (string_at fuel (lit LF)) as [l3|]; [|reflexivity].
    cbn. rewrite !puts_app. reflexivity.
  - destruct (string_at fuel (lit "  Bootloader: ")) as [l1|]; [|reflexivity].
    cbn. rewrite writestring_string_at.
    destruct (string_at fuel (tag_string mem tag)) as [l2|]; [|reflexivity].
    cbn. rewrite writestring_string_at.
    destruct (string_at fuel (lit LF)) as [l3|]; [|reflexivity].
    cbn. rewrite !puts_app. reflexivity.
Qed.

Lemma loop_output_correct (fuel : nat) (mem : memory) :
  forall tag t,
    tag_loop fuel mem tag t = (fun l => puts l t) <$> loop_output fuel mem tag.
Proof.
  induction fuel as [|fuel IH]; intros tag t; [reflexivity|].
  cbn [tag_loop loop_output].
  destruct (tag_type mem tag =? 0); [reflexivity|].
  rewrite switch_output_correct.
  destruct (switch_output (S fuel) mem tag) as [l1|]; [|reflexivity].
  cbn. rewrite IH.
  destruct (loop_output fuel mem (next_tag mem tag)) as [l2|]; [|reflexivity].
  cbn. rewrite puts_app. reflexivity.
Qed.

(** The parser is a printer: its whole effect on the terminal is to print
    [parse_output]. *)
Lemma parse_output_correct (fuel : nat) (mem : memory) (addr : Z) (t : terminal) :
  parse_multiboot_info fuel mem addr t
  = (fun l => puts l t) <$> parse_output fuel mem addr.
Proof.
  unfold parse_multiboot_info, parse_output. rewrite writestring_string_at.
  destruct (string_at fuel (lit "Multiboot information at: 0x")) as [l1|];
    [|reflexivity].
  cbn. rewrite writestring_string_at.
  destruct (string_at fuel (lit LF)) as [l2|]; [|reflexivity].
  cbn. rewrite loop_output_correct.
  destruct (loop_output fuel mem (wrap64 (addr + 8))) as [l3|]; [|reflexivity].
  cbn. rewrite !puts_app. reflexivity.
Qed.

(** More fuel never changes a result. *)
Lemma string_at_mono (fuel fuel' : nat) (data : cptr) (l : list Z) :
  (fuel <= fuel')%nat -> string_at fuel data = Some l -> string_at fuel' data = Some l.
Proof.
  unfold string_at. intros Hle H.
  destruct (scan_len fuel data 0) as [n|] eqn:E; [|discriminate].
  rewrite (scan_len_mono fuel fuel' data Hle 0 n E). exact H.
Qed.

Lemma switch_output_mono (fuel fuel' : nat) (mem : memory) (tag : Z) (l : list Z) :
  (fuel <= fuel')%nat ->
  switch_output fuel mem tag = Some l -> switch_output fuel' mem tag = Some l.
Proof.
  unfold switch_output. intros Hle H.
  repeat match goal with
         | H : context [if ?b then _ else _] |- _ => destruct b
         end;
    repeat match goal with
           | H : context [string_at fuel ?d] |- _ =>
               let E := fresh "E" in
               destruct (string_at fuel d) eqn:E; [|discriminate];
               rewrite (string_at_mono fuel fuel' d _ Hle E)
           end;
    exact H.
Qed.

Lemma loop_output_mono (fuel : nat) (mem : memory) :
  forall fuel' tag l, (fuel <= fuel')%nat ->
    loop_output fuel mem tag = Some l -> loop_output fuel' mem tag = Some l.
Proof.
  induction fuel as [|fuel IH]; intros fuel' tag l Hle H; [discriminate|].
  destruct fuel' as [|fuel']; [lia|].
  cbn [loop_output] in *.
  destruct (tag_type mem tag =? 0); [exact H|].
  destruct (switch_output (S fuel) mem tag) as [l1|] eqn:E1; [|discriminate].
  rewrite (switch_output_mono (S fuel) (S fuel') mem tag l1 ltac:(lia) E1).
  cbn in *.
  destruct (loop_output fuel mem (next_tag mem tag)) as [l2|] eqn:E2; [|discriminate].
  rewrite (IH fuel' _ l2 ltac:(lia) E2). exact H.
Qed.

Lemma parse_output_mono (fuel fuel' : nat) (mem : memory) (addr : Z) (l : list Z) :
  (fuel <= fuel')%nat ->
  parse_output fuel mem addr = Some l -> parse_output fuel' mem addr = Some l.
Proof.
  unfold parse_output. intros Hle H.
  destruct (string_at fuel (lit "Multiboot information at: 0x")) as [l1|] eqn:E1;
    [|discriminate].
  rewrite (string_at_mono _ fuel' _ _ Hle E1). cbn in *.
  destruct (string_at fuel (lit LF)) as [l2|] eqn:E2; [|discriminate].
  rewrite (string_at_mono _ fuel' _ _ Hle E2). cbn in *.
  destruct (loop_output fuel mem (wrap64 (addr + 8))) as [l3|] eqn:E3; [|discriminate].
  rewrite (loop_output_mono _ mem fuel' _ l3 Hle E3). exact H.
Qed.

End Output.

(** ** String literals *)

Section Literals.
Import VGA.

Lemma map_nth_seq (l : list Z) :
  map (fun i => nth (Z.to_nat (Z.of_nat i)) l 0) (seq 0 (length l)) = l.
Proof.
  induction l as [|x l IH]; [reflexivity|].
  cbn [length seq map]. rewrite Nat2Z.id. cbn [nth]. f_equal.
  rewrite <- seq_shift, map_map.
  rewrite <- IH at 2. apply map_ext. intros i. rewrite !Nat2Z.id. reflexivity.
Qed.

Lemma string_at_lit (fuel : nat) (s : string) :
  nul_free s = true ->
  (length (bytes_of s) < fuel)%nat ->
  Z.of_nat (length (bytes_of s)) < 2 ^ 64 ->
  string_at fuel (lit s) = Some (bytes_of s).
Proof.
  intros Hnf Hfuel Hlen. unfold string_at.
  rewrite (scan_len_first fuel (lit s) (Z.of_nat (length (bytes_of s))) 0).
  - cbn. f_equal. unfold chars, lit. rewrite Nat2Z.id. apply map_nth_seq.
  - lia.
  - exact Hlen.
  - intros i Hi. unfold lit, nul_free in *.
    rewrite forallb_forall in Hnf.
    assert (Hin : In (nth (Z.to_nat i) (bytes_of s) 0) (bytes_of s))
      by (apply nth_In; lia).
    apply Hnf in Hin. apply negb_true_iff, Z.eqb_neq in Hin. exact Hin.
  - unfold lit. rewrite Nat2Z.id. apply nth_overflow. lia.
  - lia.
Qed.

Lemma string_at_lit_inv (fuel : nat) (s : string) (l : list Z) :
  nul_free s = true -> Z.of_nat (length (bytes_of s)) < 2 ^ 64 ->
  string_at fuel (lit s) = Some l -> l = bytes_of s.
Proof.
  intros Hnf Hlen H.
  pose proof (string_at_mono fuel (fuel + S (length (bytes_of s))) _ _
                ltac:(lia) H) as H1.
  rewrite string_at_lit in H1 by (try assumption; lia).
  congruence.
Qed.

End Literals.

(** ** Claims about the parser's report *)

Section Report.
Import VGA Multiboot Blocks.

Lemma boot_block_output (mem_lower mem_upper : Z) :
  parse_output 64 (image base (boot_block mem_lower mem_upper)) base
  = Some boot_report.
Proof. vm_compute. reflexivity. Qed.

(** C8, as amended: for the block with command line "root=/dev/sda1",
    bootloader name "GRUB 2.06", basic memory info and end tag, the parser
    prints, after its header line, the three lines "  Command line:
    root=/dev/sda1", "  Bootloader: GRUB 2.06" and "  Memory detected" in
    that order, whatever [mem_lower] and [mem_upper] are: the two strings
    are exact, the memory fields are not reported. *)
Theorem boot_block_report (fuel : nat) (mem_lower mem_upper : Z) (t : terminal) :
  (64 <= fuel)%nat ->
  parse_multiboot_info fuel (image base (boot_block mem_lower mem_upper)) base t
  = Some (puts boot_report t).
Proof.
  intros H. rewrite parse_output_correct.
  rewrite (parse_output_mono 64 fuel _ _ _ H
             (boot_block_output mem_lower mem_upper)).
  reflexivity.
Qed.

Lemma boot_block_report_witness :
  parse_multiboot_info 64 (image base (boot_block 639 130048)) base blank
  = Some (puts boot_report blank).
Proof. apply (boot_block_report 64 639 130048 blank). lia. Defined.

(** C8 as stated fails: the memory-info tag holds 639 and 130048, and the
    parser's result is the one it gives when both fields are 0. *)
Lemma meminfo_fields_not_carried :
  tag_type (image base (boot_block 639 130048)) (base + 56) = 4 /\
  tag_mem_lower (image base (boot_block 639 130048)) (base + 56) = 639 /\
  tag_mem_upper (image base (boot_block 639 130048)) (base + 56) = 130048 /\
  parse_multiboot_info 64 (image base (boot_block 639 130048)) base blank
  = parse_multiboot_info 64 (image base (boot_block 0 0)) base blank.
Proof.
  split; [vm_compute; reflexivity|].
  split; [vm_compute; reflexivity|].
  split; [vm_compute; reflexivity|].
  rewrite !parse_output_correct, !boot_block_output. reflexivity.
Qed.

(** C9, as amended: [parse_multiboot_info] writes to the terminal.  When it
    returns, the terminal is the one it was given after printing the line
    "Multiboot information at: 0x" and then the report of the tags; the
    colour is the one it was given; and when the cursor was within bounds
    and above the last row, the cursor row has grown. *)
Theorem parser_prints_on_terminal (fuel : nat) (mem : memory) (addr : Z)
    (t t' : terminal) :
  parse_multiboot_info fuel mem addr t = Some t' ->
  terminal_color t' = terminal_color t /\
  (exists out,
    loop_output fuel mem (wrap64 (addr + 8)) = Some out /\
    t' = puts (bytes_of ("Multiboot information at: 0x" ++ LF) ++ out) t) /\
  (cursor_ok t -> terminal_row t < VGA_HEIGHT - 1 ->
   terminal_row t < terminal_row t').
Proof.
  rewrite parse_output_correct. unfold parse_output. intros H.
  destruct (string_at fuel (lit "Multiboot information at: 0x")) as [l1|] eqn:E1;
    [|discriminate].
  cbn in H.
  destruct (string_at fuel (lit LF)) as [l2|] eqn:E2; [|discriminate].
  cbn in H.
  destruct (loop_output fuel mem (wrap64 (addr + 8))) as [l3|] eqn:E3;
    [|discriminate].
  cbn in H. injection H as <-.
  apply string_at_lit_inv in E1; [|reflexivity|vm_compute; reflexivity].
  apply string_at_lit_inv in E2; [|reflexivity|vm_compute; reflexivity].
  subst l1 l2. split; [apply puts_color|]. split.
  - exists l3. split; [reflexivity|].
    rewrite app_assoc. reflexivity.
  - intros Hok Hrow.
    change (bytes_of LF) with [10].
    rewrite !puts_app. change (puts [10] ?x) with (terminal_putchar 10 x).
    set (t1 := puts (bytes_of "Multiboot information at: 0x") t).
    assert (Hok1 : cursor_ok t1) by (apply puts_cursor_ok, Hok).
    assert (H1 : terminal_row t <= terminal_row t1) by (apply puts_row_mono, Hok).
    assert (H2 : terminal_row t < terminal_row (terminal_putchar 10 t1)).
    { destruct (Z.lt_ge_cases (terminal_row t1) (VGA_HEIGHT - 1)) as [Hlt|Hge].
      - rewrite newline_advances_row by assumption. lia.
      - pose proof (putchar_row_mono 10 t1 Hok1). lia. }
    pose proof (puts_row_mono l3 (terminal_putchar 10 t1)
                  (putchar_cursor_ok 10 t1 Hok1)). lia.
Qed.

Lemma parser_prints_on_terminal_witness :
  terminal_color (puts Blocks.boot_report (terminal_putchar 65 blank))
  = terminal_color (terminal_putchar 65 blank) /\
  (exists out,
    loop_output 64 (image base (boot_block 639 130048)) (wrap64 (base + 8))
    = Some out /\
    puts Blocks.boot_report (terminal_putchar 65 blank)
    = puts (bytes_of ("Multiboot information at: 0x" ++ LF) ++ out)
        (terminal_putchar 65 blank)) /\
  (cursor_ok (terminal_putchar 65 blank) ->
   terminal_row (terminal_putchar 65 blank) < VGA_HEIGHT - 1 ->
   terminal_row (terminal_putchar 65 blank)
   < terminal_row (puts Blocks.boot_report (terminal_putchar 65 blank))).
Proof.
  refine (parser_prints_on_terminal 64 (image base (boot_block 639 130048)) base
            (terminal_putchar 65 blank)
            (puts Blocks.boot_report (terminal_putchar 65 blank)) _).
  rewrite parse_output_correct, boot_block_output. reflexivity.
Defined.

(** C9 as stated fails: on a block holding only the end tag the parser
    moves the cursor to row 1 and paints "M" into the first cell. *)
Lemma parser_changes_terminal :
  exists t',
    parse_multiboot_info 64 (image base empty_block) base blank = Some t' /\
    terminal_row blank = 0 /\ terminal_row t' = 1 /\
    cell_at blank 0 0 = vga_entry 32 7 /\ cell_at t' 0 0 = vga_entry 77 7 /\
    t' <> blank.
Proof.
  eexists. split; [vm_compute; reflexivity|].
  split; [vm_compute; reflexivity|].
  split; [vm_compute; reflexivity|].
  split; [vm_compute; reflexivity|].
  split; [vm_compute; reflexivity|].
  intros H. apply (f_equal terminal_row) in H. vm_compute in H. discriminate.
Qed.

End Report.

(** ** Claims about string tags and tag sizes *)

Section Tags.
Import VGA Multiboot Blocks.

Lemma string_at_first (fuel : nat) (data : cptr) (n : Z) :
  0 <= n < 2 ^ 64 ->
  (forall i, 0 <= i < n -> data i <> 0) -> data n = 0 ->
  (Z.to_nat n < fuel)%nat ->
  string_at fuel data = Some (chars data n).
Proof.
  intros Hn Hnz Hz Hfuel. unfold string_at.
  rewrite (scan_len_first fuel data n 0);
    [reflexivity | lia | lia | intros i Hi; apply Hnz; lia | exact Hz
    | rewrite Z.sub_0_r; exact Hfuel].
Qed.

Lemma switch_output_string (fuel : nat) (mem : memory) (tag n : Z) :
  tag_type mem tag = 1 \/ tag_type mem tag = 2 ->
  0 <= n < 2 ^ 64 ->
  (forall i, 0 <= i < n -> tag_string mem tag i <> 0) ->
  tag_string mem tag n = 0 ->
  (16 < fuel)%nat -> (Z.to_nat n < fuel)%nat ->
  switch_output fuel mem tag
  = Some (label (tag_type mem tag) ++ chars (tag_string mem tag) n ++ [10]).
Proof.
  intros Hty Hn Hnz Hz Hf1 Hf2. unfold switch_output, label.
  rewrite (string_at_first fuel (tag_string mem tag) n Hn Hnz Hz Hf2).
  rewrite (string_at_lit fuel LF) by (vm_compute; first [reflexivity | lia]).
  destruct Hty as [-> | ->]; cbn [Z.eqb Pos.eqb].
  - rewrite string_at_lit by (vm_compute; first [reflexivity | lia]). reflexivity.
  - rewrite string_at_lit by (vm_compute; first [reflexivity | lia]). reflexivity.
Qed.

Lemma chars_ext (d1 d2 : cptr) (n : Z) :
  (forall i, 0 <= i < n -> d1 i = d2 i) -> chars d1 n = chars d2 n.
Proof.
  intros H. unfold chars. apply map_ext_in. intros i Hi.
  apply in_seq in Hi. apply H. lia.
Qed.

Lemma load32_agree (mem mem' : memory) (addr : Z) :
  (forall k, 0 <= k < 4 -> load8 mem' (addr + k) = load8 mem (addr + k)) ->
  load32 mem' addr = load32 mem addr.
Proof.
  intros H. unfold load32.
  rewrite <- (Z.add_0_r addr) at 1 5.
  rewrite !H by lia. reflexivity.
Qed.

(** C1, as amended: for a tag of type 1 or 2 the parser prints the label
    and then the bytes from [tag + 8] up to the first NUL in memory,
    wherever that NUL is; [size] is not consulted.  When the NUL lies inside
    the tag's [size - 8] payload bytes, nothing outside the tag's [size]
    bytes bears on the result. *)
Theorem string_tag_runs_to_first_nul (fuel : nat) (mem : memory) (tag n : Z)
    (t : terminal) :
  tag_type mem tag = 1 \/ tag_type mem tag = 2 ->
  0 <= n < 2 ^ 64 ->
  (forall i, 0 <= i < n -> tag_string mem tag i <> 0) ->
  tag_string mem tag n = 0 ->
  (16 < fuel)%nat -> (Z.to_nat n < fuel)%nat ->
  tag_switch fuel mem tag t
  = Some (puts (label (tag_type mem tag) ++ chars (tag_string mem tag) n ++ [10]) t)
  /\
  (n < tag_size mem tag - 8 ->
   forall mem' : memory,
     (forall k, 0 <= k < tag_size mem tag ->
                load8 mem' (tag + k) = load8 mem (tag + k)) ->
     tag_switch fuel mem' tag t = tag_switch fuel mem tag t).
Proof.
  intros Hty Hn Hnz Hz Hf1 Hf2.
  assert (Hout : tag_switch fuel mem tag t
                 = Some (puts (label (tag_type mem tag)
                               ++ chars (tag_string mem tag) n ++ [10]) t)).
  { rewrite switch_output_correct.
    rewrite (switch_output_string fuel mem tag n) by assumption. reflexivity. }
  split; [exact Hout|].
  intros Hin mem' Hsame. rewrite Hout.
  assert (Htype : tag_type mem' tag = tag_type mem tag).
  { apply load32_agree. intros k Hk. apply Hsame. lia. }
  assert (Hstr : forall i, 0 <= i <= n -> tag_string mem' tag i = tag_string mem tag i).
  { intros i Hi. unfold tag_string. rewrite <- !Z.add_assoc. apply Hsame. lia. }
  rewrite switch_output_correct.
  rewrite (switch_output_string fuel mem' tag n); try assumption.
  - cbn. rewrite Htype.
    rewrite (chars_ext (tag_string mem' tag) (tag_string mem tag) n); [reflexivity|].
    intros i Hi. apply Hstr. lia.
  - rewrite Htype. exact Hty.
  - intros i Hi. rewrite Hstr by lia. apply Hnz, Hi.
  - rewrite Hstr by lia. exact Hz.
Qed.

Lemma string_tag_runs_to_first_nul_witness :
  tag_switch 64 (image base (boot_block 639 130048)) (base + 8) blank
  = Some (puts (bytes_of ("  Command line: root=/dev/sda1" ++ LF)) blank).
Proof.
  refine (eq_trans
            (proj1 (string_tag_runs_to_first_nul 64
                      (image base (boot_block 639 130048)) (base + 8) 14 blank
                      _ _ _ _ _ _)) _).
  - left. vm_compute. reflexivity.
  - lia.
  - intros i Hi.
    assert (Hc : i = 0 \/ i = 1 \/ i = 2 \/ i = 3 \/ i = 4 \/ i = 5 \/ i = 6 \/ i = 7
                 \/ i = 8 \/ i = 9 \/ i = 10 \/ i = 11 \/ i = 12 \/ i = 13) by lia.
    repeat (destruct Hc as [-> | Hc]; [vm_compute; discriminate|]).
    subst i. vm_compute. discriminate.
  - vm_compute. reflexivity.
  - lia.
  - lia.
  - vm_compute. reflexivity.
Defined.

(** C1 as stated fails: a command-line tag of size 10 whose two payload
    bytes "AB" hold no NUL is printed as "ABC", with the byte behind the
    tag, not truncated to "AB". *)
Lemma unterminated_string_not_truncated :
  tag_type (image base unterminated_block) (base + 8) = 1 /\
  tag_size (image base unterminated_block) (base + 8) = 10 /\
  chars (tag_string (image base unterminated_block) (base + 8)) (10 - 8)
  = bytes_of "AB" /\
  parse_multiboot_info 64 (image base unterminated_block) base blank
  = Some (puts (bytes_of ("Multiboot information at: 0x" ++ LF
                          ++ "  Command line: ABC" ++ LF)) blank) /\
  parse_multiboot_info 64 (image base unterminated_block) base blank
  <> Some (puts (bytes_of ("Multiboot information at: 0x" ++ LF
                           ++ "  Command line: AB" ++ LF)) blank).
Proof.
  split; [vm_compute; reflexivity|].
  split; [vm_compute; reflexivity|].
  split; [vm_compute; reflexivity|].
  assert (H : parse_multiboot_info 64 (image base unterminated_block) base blank
              = Some (puts (bytes_of ("Multiboot information at: 0x" ++ LF
                                      ++ "  Command line: ABC" ++ LF)) blank))
    by (vm_compute; reflexivity).
  split; [exact H|].
  rewrite H. intros E.
  apply (f_equal (fun o => (fun t => cell_at t 18 1) <$> o)) in E.
  vm_compute in E. discriminate.
Qed.

End Tags.

(** ** Claims about the tag walk *)

Section Walk.
Import VGA Multiboot Blocks.

Lemma load8_range (mem : memory) (addr : Z) : 0 <= load8 mem addr < 2 ^ 8.
Proof. unfold load8, wrap8. apply Z.mod_pos_bound. lia. Qed.

Lemma load32_range (mem : memory) (addr : Z) : 0 <= load32 mem addr < 2 ^ 32.
Proof.
  unfold load32.
  pose proof (load8_range mem addr).
  pose proof (load8_range mem (addr + 1)).
  pose proof (load8_range mem (addr + 2)).
  pose proof (load8_range mem (addr + 3)).
  lia.
Qed.

Lemma next_tag_short (mem : memory) (tag : Z) :
  tag_size mem tag < 8 ->
  next_tag mem tag = wrap64 (tag + (if tag_size mem tag =? 0 then 0 else 8)).
Proof.
  intros H. unfold next_tag.
  pose proof (load32_range mem (tag + 4)) as Hr. fold (tag_size mem tag) in Hr.
  assert (Hc : tag_size mem tag = 0 \/ tag_size mem tag = 1 \/ tag_size mem tag = 2
               \/ tag_size mem tag = 3 \/ tag_size mem tag = 4
               \/ tag_size mem tag = 5 \/ tag_size mem tag = 6
               \/ tag_size mem tag = 7) by lia.
  repeat (destruct Hc as [-> | Hc]; [reflexivity|]).
  rewrite Hc. reflexivity.
Qed.

(** C2, as amended: a tag whose size field is below 8 is not rejected.  The
    loop handles it by its type like any other tag, a string tag's text
    being read from [tag + 8], and moves the cursor by [(size + 7) & ~7]:
    by 8 bytes when [1 <= size < 8], by 0 bytes when [size = 0]. *)
Theorem short_tag_is_processed (fuel : nat) (mem : memory) (tag : Z) (t : terminal) :
  tag_type mem tag <> 0 -> tag_size mem tag < 8 ->
  tag_loop (S fuel) mem tag t
  = (tag_switch (S fuel) mem tag t
       ≫= tag_loop fuel mem
             (wrap64 (tag + (if tag_size mem tag =? 0 then 0 else 8)))) /\
  (forall n,
      tag_type mem tag = 1 \/ tag_type mem tag = 2 ->
      0 <= n < 2 ^ 64 ->
      (forall i, 0 <= i < n -> tag_string mem tag i <> 0) ->
      tag_string mem tag n = 0 ->
      (16 <= fuel)%nat -> (Z.to_nat n <= fuel)%nat ->
      tag_loop (S fuel) mem tag t
      = tag_loop fuel mem
          (wrap64 (tag + (if tag_size mem tag =? 0 then 0 else 8)))
          (puts (label (tag_type mem tag)
                 ++ chars (tag_string mem tag) n ++ [10]) t)).
Proof.
  intros Hty Hsz.
  assert (Hstep : tag_loop (S fuel) mem tag t
                  = (tag_switch (S fuel) mem tag t
                       ≫= tag_loop fuel mem
                             (wrap64 (tag + (if tag_size mem tag =? 0
                                             then 0 else 8))))).
  { cbn [tag_loop]. apply Z.eqb_neq in Hty. rewrite Hty.
    rewrite next_tag_short by exact Hsz. reflexivity. }
  split; [exact Hstep|].
  intros n H12 Hn Hnz Hz Hf1 Hf2. rewrite Hstep.
  rewrite switch_output_correct.
  rewrite (switch_output_string (S fuel) mem tag n) by (try assumption; lia).
  reflexivity.
Qed.

Lemma short_tag_is_processed_witness :
  tag_loop 64 (image base short_block) (base + 8) blank
  = tag_loop 63 (image base short_block) (base + 16)
      (puts (bytes_of ("  Command line: HI" ++ LF)) blank).
Proof.
  refine (eq_trans
            (proj2 (short_tag_is_processed 63 (image base short_block)
                      (base + 8) blank _ _) 2 _ _ _ _ _ _) _).
  - vm_compute. discriminate.
  - vm_compute. reflexivity.
  - left. vm_compute. reflexivity.
  - lia.
  - intros i Hi. assert (Hc : i = 0 \/ i = 1) by lia.
    destruct Hc as [-> | ->]; vm_compute; discriminate.
  - vm_compute. reflexivity.
  - lia.
  - lia.
  - vm_compute. reflexivity.
Defined.

(** C2 as stated fails: a command-line tag with size 7 is not rejected; its
    text "HI" is read from [tag + 8] and printed, the cursor moves on by 8
    bytes and the walk ends normally at the end tag two steps later. *)
Lemma short_tag_not_rejected :
  tag_type (image base short_block) (base + 8) = 1 /\
  tag_size (image base short_block) (base + 8) = 7 /\
  walk (image base short_block) (base + 8) 1 = base + 16 /\
  walk (image base short_block) (base + 8) 2 = base + 24 /\
  tag_type (image base short_block) (base + 24) = 0 /\
  parse_multiboot_info 64 (image base short_block) base blank
  = Some (puts (bytes_of ("Multiboot information at: 0x" ++ LF
                          ++ "  Command line: HI" ++ LF)) blank).
Proof.
  split; [vm_compute; reflexivity|].
  split; [vm_compute; reflexivity|].
  split; [vm_compute; reflexivity|].
  split; [vm_compute; reflexivity|].
  split; [vm_compute; reflexivity|].
  vm_compute. reflexivity.
Qed.

Lemma walk_next (mem : memory) (k : nat) :
  forall tag, walk mem tag (S k) = next_tag mem (walk mem tag k).
Proof.
  induction k as [|k IH]; intros tag; [reflexivity|].
  change (walk mem tag (S (S k))) with (walk mem (next_tag mem tag) (S k)).
  rewrite IH. reflexivity.
Qed.

Lemma walk_fixed (mem : memory) (tag : Z) (k : nat) :
  next_tag mem tag = tag -> walk mem tag k = tag.
Proof.
  intros H. induction k as [|k IH]; [reflexivity|].
  cbn [walk]. rewrite H. exact IH.
Qed.

Lemma loop_output_never (mem : memory) (fuel : nat) :
  forall tag, (forall k, tag_type mem (walk mem tag k) <> 0) ->
              loop_output fuel mem tag = None.
Proof.
  induction fuel as [|fuel IH]; intros tag H; [reflexivity|].
  cbn [loop_output].
  pose proof (H 0%nat) as H0. cbn [walk] in H0.
  apply Z.eqb_neq in H0. rewrite H0.
  rewrite (IH (next_tag mem tag)) by (intros k; apply (H (S k))).
  destruct (switch_output (S fuel) mem tag); reflexivity.
Qed.

Lemma switch_output_total (fuel : nat) (mem : memory) (tag : Z) (L : Z) :
  (tag_type mem tag = 1 \/ tag_type mem tag = 2 ->
   exists m, 0 <= m < L /\ tag_string mem tag m = 0) ->
  L <= 2 ^ 64 -> (18 < fuel)%nat -> (Z.to_nat L <= fuel)%nat ->
  exists l, switch_output fuel mem tag = Some l.
Proof.
  intros Hstr HL Hf1 Hf2. unfold switch_output.
  assert (Hs : tag_type mem tag = 1 \/ tag_type mem tag = 2 ->
               exists l, string_at fuel (tag_string mem tag) = Some l).
  { intros H12. destruct (Hstr H12) as (m & Hm & Hz).
    destruct (scan_len_total fuel (tag_string mem tag) m 0) as [n Hn];
      [lia | lia | exact Hz | lia |].
    unfold string_at. rewrite Hn. eauto. }
  rewrite (string_at_lit fuel LF) by (vm_compute; first [reflexivity | lia]).
  destruct (tag_type mem tag =? 1) eqn:E1.
  - apply Z.eqb_eq in E1. destruct (Hs (or_introl E1)) as [l Hl].
    rewrite Hl, string_at_lit by (vm_compute; first [reflexivity | lia]).
    cbn. eauto.
  - destruct (tag_type mem tag =? 2) eqn:E2.
    + apply Z.eqb_eq in E2. destruct (Hs (or_intror E2)) as [l Hl].
      rewrite Hl, string_at_lit by (vm_compute; first [reflexivity | lia]).
      cbn. eauto.
    + destruct (tag_type mem tag =? 4).
      * rewrite string_at_lit by (vm_compute; first [reflexivity | lia]). eauto.
      * eauto.
Qed.

Lemma loop_output_reaches_end (mem : memory) (L : Z) (n : nat) :
  forall fuel tag,
    tag_type mem (walk mem tag n) = 0 ->
    (forall k, (k < n)%nat ->
       tag_type mem (walk mem tag k) = 1 \/ tag_type mem (walk mem tag k) = 2 ->
       exists m, 0 <= m < L /\ tag_string mem (walk mem tag k) m = 0) ->
    L <= 2 ^ 64 -> (n + Z.to_nat L + 19 <= fuel)%nat ->
    exists l, loop_output fuel mem tag = Some l.
Proof.
  induction n as [|n IH]; intros fuel tag Hend Hstr HL Hfuel.
  - destruct fuel as [|fuel]; [lia|]. cbn [loop_output walk] in *.
    rewrite Hend. cbn. eauto.
  - destruct fuel as [|fuel]; [lia|]. cbn [loop_output].
    destruct (tag_type mem tag =? 0); [eauto|].
    destruct (switch_output_total (S fuel) mem tag L) as [l1 Hl1];
      [apply (Hstr 0%nat); lia | exact HL | lia | lia |].
    rewrite Hl1. cbn.
    destruct (IH fuel (next_tag mem tag)) as [l2 Hl2];
      [exact Hend | intros k Hk; apply (Hstr (S k)); lia | exact HL | lia |].
    rewrite Hl2. cbn. eauto.
Qed.

End Walk.

Section EndTag.
Import VGA Multiboot Blocks.

Lemma parse_never_returns (mem : memory) (addr : Z) (fuel : nat) (t : terminal) :
  (forall k, tag_type mem (walk mem (wrap64 (addr + 8)) k) <> 0) ->
  parse_multiboot_info fuel mem addr t = None.
Proof.
  intros H. rewrite parse_output_correct. unfold parse_output.
  rewrite (loop_output_never mem fuel _ H).
  destruct (string_at fuel (lit "Multiboot information at: 0x")); [|reflexivity].
  destruct (string_at fuel (lit LF)); reflexivity.
Qed.

Lemma parse_returns (mem : memory) (addr L : Z) (n fuel : nat) (t : terminal) :
  tag_type mem (walk mem (wrap64 (addr + 8)) n) = 0 ->
  (forall k, (k < n)%nat ->
     tag_type mem (walk mem (wrap64 (addr + 8)) k) = 1
     \/ tag_type mem (walk mem (wrap64 (addr + 8)) k) = 2 ->
     exists m, 0 <= m < L
               /\ tag_string mem (walk mem (wrap64 (addr + 8)) k) m = 0) ->
  L <= 2 ^ 64 -> (n + Z.to_nat L + 29 <= fuel)%nat ->
  exists t', parse_multiboot_info fuel mem addr t = Some t'.
Proof.
  intros Hend Hstr HL Hfuel. rewrite parse_output_correct. unfold parse_output.
  rewrite !string_at_lit by (vm_compute; first [reflexivity | lia]).
  destruct (loop_output_reaches_end mem L n fuel (wrap64 (addr + 8)))
    as [l Hl]; [exact Hend | exact Hstr | exact HL | lia |].
  rewrite Hl. cbn. eauto.
Qed.

(** C3, as amended: parsing does not consult the declared total size and
    has no malformed-block result.  If the walk from [multiboot_addr + 8]
    never meets a tag of type 0, parsing does not return, whatever the fuel;
    if it meets one after [n] steps, wherever in memory, and the string tags
    on the way are NUL-terminated, parsing returns normally. *)
Theorem parse_stops_only_at_end_tag (mem : memory) (addr : Z) :
  (forall fuel t,
      (forall k, tag_type mem (walk mem (wrap64 (addr + 8)) k) <> 0) ->
      parse_multiboot_info fuel mem addr t = None) /\
  (forall (n : nat) (L : Z) fuel t,
      tag_type mem (walk mem (wrap64 (addr + 8)) n) = 0 ->
      (forall k, (k < n)%nat ->
         tag_type mem (walk mem (wrap64 (addr + 8)) k) = 1
         \/ tag_type mem (walk mem (wrap64 (addr + 8)) k) = 2 ->
         exists m, 0 <= m < L
                   /\ tag_string mem (walk mem (wrap64 (addr + 8)) k) m = 0) ->
      L <= 2 ^ 64 -> (n + Z.to_nat L + 29 <= fuel)%nat ->
      exists t', parse_multiboot_info fuel mem addr t = Some t').
Proof.
  split.
  - intros fuel t H. apply parse_never_returns, H.
  - intros n L fuel t. apply parse_returns.
Qed.

Lemma stuck_block_walk (k : nat) :
  tag_type (image base stuck_block)
    (walk (image base stuck_block) (wrap64 (base + 8)) k) <> 0.
Proof.
  rewrite walk_fixed by (vm_compute; reflexivity).
  vm_compute. discriminate.
Qed.

Lemma parse_stops_only_at_end_tag_witness :
  (forall fuel, parse_multiboot_info fuel (image base stuck_block) base blank = None)
  /\ exists t', parse_multiboot_info 64 (image base empty_block) base blank = Some t'.
Proof.
  split.
  - intros fuel.
    exact (proj1 (parse_stops_only_at_end_tag (image base stuck_block) base)
             fuel blank stuck_block_walk).
  - refine (proj2 (parse_stops_only_at_end_tag (image base empty_block) base)
              0%nat 1 64%nat blank _ _ _ _).
    + vm_compute. reflexivity.
    + intros k Hk. lia.
    + lia.
    + vm_compute. lia.
Defined.

(** C3 as stated fails.  A block of declared total size 16 whose only tag
    has type 5 and size 0 never reaches an end tag, and parsing does not
    return for any fuel.  A block of declared total size 24 without end tag
    is walked through into the memory behind it: the command line "X" found
    there is printed and parsing returns as for a well-formed block. *)
Lemma missing_end_tag_not_detected :
  (load32 (image base stuck_block) base = 16 /\
   forall fuel,
     parse_multiboot_info fuel (image base stuck_block) base blank = None) /\
  (load32 (image base (endless_block ++ behind_endless_block)) base = 24 /\
   walk (image base (endless_block ++ behind_endless_block)) (base + 8) 1
   = base + 24 /\
   parse_multiboot_info 64 (image base (endless_block ++ behind_endless_block))
     base blank
   = Some (puts (bytes_of ("Multiboot information at: 0x" ++ LF
                           ++ "  Command line: X" ++ LF)) blank)).
Proof.
  split; split.
  - vm_compute. reflexivity.
  - intros fuel. apply parse_never_returns. exact stuck_block_walk.
  - vm_compute. reflexivity.
  - split; vm_compute; reflexivity.
Qed.

End EndTag.

(** ** Claim about the kernel entry *)

Section Entry.
Import VGA Multiboot Kernel Blocks.

Lemma writestring_lit (fuel : nat) (s : string) (calls : list Z) (t : terminal) :
  nul_free s = true ->
  (length (bytes_of s) < fuel)%nat ->
  Z.of_nat (length (bytes_of s)) < 2 ^ 64 ->
  writestring fuel s (Run calls (Some t)) = Run calls (Some (puts (bytes_of s) t)).
Proof.
  intros H1 H2 H3. unfold writestring.
  cbn [screen parser_calls mbind option_bind].
  rewrite writestring_string_at, string_at_lit by assumption. reflexivity.
Qed.

Lemma writestring_none (fuel : nat) (s : string) (calls : list Z) :
  writestring fuel s (Run calls None) = Run calls None.
Proof. reflexivity. Qed.

Lemma exec_some (f : terminal -> terminal) (calls : list Z) (t : terminal) :
  exec f (Run calls (Some t)) = Run calls (Some (f t)).
Proof. reflexivity. Qed.

Lemma exec_none (f : terminal -> terminal) (calls : list Z) :
  exec f (Run calls None) = Run calls None.
Proof. reflexivity. Qed.

(** Runs the calls on literals from the innermost one outwards. *)
Ltac run_literals :=
  repeat match goal with
         | |- context [exec ?f (Run ?c (Some ?t))] =>
             rewrite (exec_some f c t)
         | |- context [exec ?f (Run ?c None)] =>
             rewrite (exec_none f c)
         | |- context [writestring ?fuel ?s (Run ?c None)] =>
             rewrite (writestring_none fuel s c)
         | |- context [writestring ?fuel ?s (Run ?c (Some ?t))] =>
             rewrite (writestring_lit fuel s c t)
               by (vm_compute; first [reflexivity | lia])
         end.

(** C4: [kernel_main] calls [parse_multiboot_info] exactly when [magic] is
    0x36d76289.  With that value it prints the success notice, calls the
    parser once with [multiboot_addr] and prints the remaining notices on
    what the parser returns; with any other value it prints the error text
    in light red and is at the halt label without a call of the parser. *)
Theorem kernel_main_checks_magic (fuel : nat) (mem : memory)
    (magic multiboot_addr : Z) (t : terminal) :
  (50 <= fuel)%nat ->
  (magic = MULTIBOOT2_MAGIC ->
   parser_calls (kernel_main fuel mem magic multiboot_addr t) = [multiboot_addr]
   /\ screen (kernel_main fuel mem magic multiboot_addr t)
      = report_screen <$> parse_multiboot_info fuel mem multiboot_addr (ok_screen t))
  /\
  (magic <> MULTIBOOT2_MAGIC ->
   kernel_main fuel mem magic multiboot_addr t = Run [] (Some (error_screen t))).
Proof.
  intros Hfuel. split.
  - intros ->. unfold kernel_main.
    change (negb (MULTIBOOT2_MAGIC =? MULTIBOOT2_MAGIC)) with false.
    cbv iota zeta. run_literals.
    unfold call_parse_multiboot_info. cbn [screen parser_calls app].
    unfold ok_screen, banner_screen.
    match goal with
    | |- context [parse_multiboot_info fuel mem multiboot_addr ?s] =>
        destruct (parse_multiboot_info fuel mem multiboot_addr s) as [t'|]
    end.
    + run_literals. split; [reflexivity|].
      cbn [screen fmap option_fmap option_map]. unfold report_screen. reflexivity.
    + run_literals. split; reflexivity.
  - intros Hne. unfold kernel_main.
    apply Z.eqb_neq in Hne. rewrite Hne. cbn [negb]. cbv iota zeta.
    run_literals. unfold error_screen, banner_screen. reflexivity.
Qed.

Lemma kernel_main_checks_magic_witness :
  parser_calls (kernel_main 64 (image base (boot_block 639 130048))
                  0x36d76289 base blank) = [base] /\
  kernel_main 64 (image base (boot_block 639 130048)) 0 base blank
  = Run [] (Some (error_screen blank)) /\
  kernel_main 64 (image base (boot_block 639 130048)) 0xFFFFFFFFFFFFFFFF base blank
  = Run [] (Some (error_screen blank)).
Proof.
  assert (Hfuel : (50 <= 64)%nat) by lia.
  split; [|split].
  - destruct (kernel_main_checks_magic 64 (image base (boot_block 639 130048))
                0x36d76289 base blank Hfuel) as [Hok _].
    destruct (Hok eq_refl) as [Hcalls _]. exact Hcalls.
  - destruct (kernel_main_checks_magic 64 (image base (boot_block 639 130048))
                0 base blank Hfuel) as [_ Herr].
    apply Herr. discriminate.
  - destruct (kernel_main_checks_magic 64 (image base (boot_block 639 130048))
                0xFFFFFFFFFFFFFFFF base blank Hfuel) as [_ Herr].
    apply Herr. discriminate.
Defined.

End Entry.

(** * Further properties of the code *)

Section Cells.
Import VGA Multiboot Kernel Blocks Lib.

Lemma lor_shiftl_add (a b k : Z) :
  0 <= k -> 0 <= a < 2 ^ k -> Z.lor a (Z.shiftl b k) = a + b * 2 ^ k.
Proof.
  intros Hk Ha.
  assert (Hland : Z.land a (Z.shiftl b k) = 0).
  { apply Z.bits_inj'. intros n Hn. rewrite Z.land_spec, Z.bits_0.
    destruct (Z.ltb_spec n k).
    - rewrite Z.shiftl_spec_low by lia. apply andb_false_r.
    - destruct (Z.eq_dec a 0) as [-> | Ha0]; [rewrite Z.bits_0; reflexivity|].
      rewrite Z.bits_above_log2; [reflexivity | lia |].
      apply Z.log2_lt_pow2; [lia|].
      apply Z.lt_le_trans with (2 ^ k); [lia|].
      apply Z.pow_le_mono_r; lia. }
  rewrite <- Z.lxor_lor by exact Hland.
  rewrite <- Z.add_nocarry_lxor by exact Hland.
  rewrite Z.shiftl_mul_pow2 by lia. reflexivity.
Qed.

(** X2: a cell keeps its character in the low byte and its attribute in
    the high byte. *)
Theorem vga_entry_fields (c color : Z) :
  vga_entry c color = wrap8 c + 2 ^ 8 * wrap8 color /\
  vga_entry c color mod 2 ^ 8 = wrap8 c /\
  vga_entry c color / 2 ^ 8 = wrap8 color.
Proof.
  assert (Hc : 0 <= wrap8 c < 2 ^ 8) by (apply Z.mod_pos_bound; lia).
  assert (Hk : 0 <= wrap8 color < 2 ^ 8) by (apply Z.mod_pos_bound; lia).
  assert (H : vga_entry c color = wrap8 c + 2 ^ 8 * wrap8 color).
  { unfold vga_entry. rewrite lor_shiftl_add by lia.
    unfold wrap16. rewrite Z.mod_small by lia. lia. }
  rewrite H. split; [reflexivity|]. split.
  - symmetry. apply Z.mod_unique with (wrap8 color); lia.
  - symmetry. apply Z.div_unique with (wrap8 c); lia.
Qed.

(** X1: an attribute keeps the foreground in its low and the background in
    its high four bits. *)
Theorem vga_entry_color_fields (fg bg : vga_color) :
  vga_entry_color fg bg = color_code fg + 16 * color_code bg /\
  vga_entry_color fg bg mod 16 = color_code fg /\
  vga_entry_color fg bg / 16 = color_code bg.
Proof. destruct fg, bg; (split; [|split]); reflexivity. Qed.

End Cells.

Section Masks.
Import VGA Multiboot Kernel Blocks Lib.

(** Clearing the [k] low bits of a [w]-bit value rounds it down to a
    multiple of [2 ^ k]. *)
Lemma land_high_mask (x w k : Z) :
  0 <= k <= w -> 0 <= x < 2 ^ w ->
  Z.land x (2 ^ w - 2 ^ k) = 2 ^ k * (x / 2 ^ k).
Proof.
  intros Hk Hx.
  replace (2 ^ w - 2 ^ k) with (Z.shiftl (Z.ones (w - k)) k).
  2:{ rewrite Z.shiftl_mul_pow2, Z.ones_equiv by lia.
      replace w with (w - k + k) at 2 by lia.
      rewrite Z.pow_add_r by lia. lia. }
  replace (2 ^ k * (x / 2 ^ k)) with (Z.shiftl (Z.shiftr x k) k).
  2:{ rewrite Z.shiftl_mul_pow2, Z.shiftr_div_pow2 by lia. lia. }
  apply Z.bits_inj'. intros n Hn. rewrite Z.land_spec.
  destruct (Z.ltb_spec n k).
  - rewrite !Z.shiftl_spec_low by lia. apply andb_false_r.
  - rewrite !Z.shiftl_spec by lia. rewrite Z.shiftr_spec by lia.
    replace (n - k + k) with n by lia.
    destruct (Z.ltb_spec n w).
    + rewrite Z.ones_spec_low by lia. apply andb_true_r.
    + rewrite Z.ones_spec_high by lia. rewrite andb_false_r. symmetry.
      destruct (Z.eq_dec x 0) as [-> | Hx0]; [apply Z.bits_0|].
      apply Z.bits_above_log2; [lia|].
      apply Z.log2_lt_pow2; [lia|].
      apply Z.lt_le_trans with (2 ^ w); [lia|].
      apply Z.pow_le_mono_r; lia.
Qed.

(** X6: a tab stop is the next multiple of 4 strictly behind the column. *)
Theorem tab_stop_next_multiple (col : Z) :
  0 <= col < 2 ^ 64 - 4 ->
  tab_stop col = 4 * (col / 4 + 1) /\
  col < tab_stop col <= col + 4 /\
  tab_stop col mod 4 = 0.
Proof.
  intros H. unfold tab_stop. rewrite wrap64_small by lia.
  change (2 ^ 64 - 4) with (2 ^ 64 - 2 ^ 2).
  rewrite land_high_mask by lia. change (2 ^ 2) with 4.
  replace ((col + 4) / 4) with (col / 4 + 1)
    by (replace (col + 4) with (col + 1 * 4) by lia; rewrite Z.div_add by lia; reflexivity).
  pose proof (Z.div_mod col 4 ltac:(lia)).
  pose proof (Z.mod_pos_bound col 4 ltac:(lia)).
  split; [reflexivity|]. split; [lia|].
  rewrite Z.mul_comm. apply Z.mod_mul. lia.
Qed.

(** X17: the loop step rounds the size up to a multiple of 8. *)
Theorem next_tag_rounds_up (mem : memory) (tag : Z) :
  tag_size mem tag < 2 ^ 32 - 7 ->
  next_tag mem tag = wrap64 (tag + 8 * ((tag_size mem tag + 7) / 8)) /\
  tag_size mem tag <= 8 * ((tag_size mem tag + 7) / 8) < tag_size mem tag + 8.
Proof.
  intros H. unfold next_tag.
  pose proof (load32_range mem (tag + 4)) as Hr. fold (tag_size mem tag) in Hr.
  unfold wrap32. rewrite Z.mod_small by lia.
  change (2 ^ 32 - 8) with (2 ^ 32 - 2 ^ 3).
  rewrite land_high_mask by lia. change (2 ^ 3) with 8.
  split; [reflexivity|].
  pose proof (Z.div_mod (tag_size mem tag + 7) 8 ltac:(lia)).
  pose proof (Z.mod_pos_bound (tag_size mem tag + 7) 8 ltac:(lia)).
  lia.
Qed.


End Masks.

Ltac case_bounds :=
  repeat match goal with
         | |- context [(?a <? ?b)%nat] => destruct (Nat.ltb_spec a b)
         | |- context [(?a <=? ?b)%nat] => destruct (Nat.leb_spec a b)
         end;
  first [lia | reflexivity | f_equal; lia].

Section Buffer.
Import VGA Multiboot Kernel Blocks Lib.

Lemma cell_set_length (buf : list Z) (i v : Z) :
  length (cell_set buf i v) = length buf.
Proof. unfold cell_set. apply length_insert. Qed.







Lemma initialize_row (v : Z) (buf b : list Z) (y : nat) :
  length buf = 2000%nat -> (y < 25)%nat ->
  cleared_to v buf b (y * 80) ->
  cleared_to v buf
    (for_range 0 (Z.to_nat VGA_WIDTH) (fun x b =>
       cell_set b (wrap64 (Z.of_nat y * VGA_WIDTH + x)) v) b)
    (S y * 80).
Proof.
  intros Hlen Hy Hb. unfold VGA_WIDTH.
  replace (S y * 80)%nat with (y * 80 + Z.to_nat 80)%nat by lia.
  apply (for_range_ind (fun x a => cleared_to v buf a (y * 80 + x))); [lia | |].
  - rewrite Nat.add_0_r. exact Hb.
  - intros x a Hx [Hla Ha]. unfold cell_set.
    rewrite wrap64_small by lia.
    replace (Z.to_nat (Z.of_nat y * 80 + Z.of_nat x)) with (y * 80 + x)%nat by lia.
    split; [rewrite length_insert; exact Hla|].
    intros j. rewrite nth_insert, Ha.
    destruct (decide (_ /\ _)) as [[Heq _]|Hn].
    + subst j. case_bounds.
    + assert (j <> y * 80 + x)%nat by (intros ->; apply Hn; split; lia).
      case_bounds.
Qed.

(** X3: whatever the terminal held, [terminal_initialize] leaves the blank
    screen: every cell a space in light grey on black, cursor at the
    origin. *)
Theorem initialize_clears_screen (t : terminal) :
  length (terminal_buffer t) = 2000%nat ->
  terminal_initialize t = blank.
Proof.
  intros Hlen. unfold terminal_initialize, blank.
  change (vga_entry_color VGA_LIGHT_GREY VGA_BLACK) with 7. f_equal.
  assert (H : cleared_to (vga_entry 32 7) (terminal_buffer t)
                (for_range 0 (Z.to_nat VGA_HEIGHT) (fun y =>
                   for_range 0 (Z.to_nat VGA_WIDTH) (fun x b =>
                     cell_set b (wrap64 (y * VGA_WIDTH + x)) (vga_entry 32 7)))
                   (terminal_buffer t))
                (Z.to_nat VGA_HEIGHT * 80)).
  { apply (for_range_ind (fun y a =>
             cleared_to (vga_entry 32 7) (terminal_buffer t) a (y * 80)));
      [lia | |].
    - split; [reflexivity|]. intros j. reflexivity.
    - intros y a Hy Ha. apply initialize_row; [exact Hlen | | exact Ha].
      unfold VGA_HEIGHT in Hy. lia. }
  destruct H as [Hl Hn]. rewrite Hlen in Hl.
  apply (nth_ext _ _ 0 0).
  - rewrite Hl, length_replicate. reflexivity.
  - intros j Hj. rewrite Hl in Hj. rewrite Hn.
    change (Z.to_nat VGA_HEIGHT * 80)%nat with 2000%nat.
    destruct (Nat.ltb_spec j 2000); [|lia].
    rewrite nth_lookup, lookup_replicate_2 by lia. reflexivity.
Qed.

End Buffer.

Section Painting.
Import VGA Multiboot Kernel Blocks Lib.

(** The code of [terminal_putchar] for a painted byte, with the wrap-around
    of the two increments resolved by the cursor bounds. *)
Lemma putchar_printable (c : Z) (t : terminal) :
  printable c -> cursor_ok t ->
  terminal_putchar c t
  = let painted :=
      cell_set (terminal_buffer t)
        (terminal_row t * VGA_WIDTH + terminal_column t)
        (vga_entry c (terminal_color t)) in
    if terminal_column t + 1 <? VGA_WIDTH then
      Terminal (terminal_row t) (terminal_column t + 1) (terminal_color t) painted
    else if terminal_row t + 1 <? VGA_HEIGHT then
      Terminal (terminal_row t + 1) 0 (terminal_color t) painted
    else
      terminal_scroll (Terminal (VGA_HEIGHT - 1) 0 (terminal_color t) painted).
Proof.
  unfold printable, cursor_ok, VGA_WIDTH, VGA_HEIGHT.
  intros [Hnl Htab] [Hr Hc].
  unfold terminal_putchar.
  apply Z.eqb_neq in Hnl. apply Z.eqb_neq in Htab. rewrite Hnl, Htab.
  cbn [terminal_putentryat set_buffer terminal_row terminal_column
       terminal_color terminal_buffer].
  unfold VGA_WIDTH, VGA_HEIGHT. rewrite !wrap64_small by lia. cbv zeta.
  destruct (Z.ltb_spec (terminal_column t + 1) 80).
  - destruct (Z.eqb_spec (terminal_column t + 1) 80); [lia|]. reflexivity.
  - destruct (Z.eqb_spec (terminal_column t + 1) 80); [|lia].
    destruct (Z.ltb_spec (terminal_row t + 1) 25).
    + destruct (Z.eqb_spec (terminal_row t + 1) 25); [lia|]. reflexivity.
    + destruct (Z.eqb_spec (terminal_row t + 1) 25); [|lia]. reflexivity.
Qed.

Lemma scroll_cell (t : terminal) (x y : Z) :
  length (terminal_buffer t) = 2000%nat ->
  0 <= x < VGA_WIDTH -> 0 <= y < VGA_HEIGHT - 1 ->
  cell_at (terminal_scroll t) x y = cell_at t x (y + 1).
Proof.
  unfold VGA_WIDTH, VGA_HEIGHT. intros Hlen Hx Hy.
  destruct (scroll_copy_spec (terminal_buffer t) Hlen) as [Hcl Hc].
  rewrite Hlen in Hcl.
  destruct (scroll_clear_spec (terminal_color t) _ Hcl) as [_ Hf].
  unfold cell_at, cell_get, VGA_WIDTH.
  cbn [terminal_scroll set_buffer terminal_buffer].
  rewrite Hf, Hc. case_bounds.
Qed.

(** X5: a painted byte goes into the cell under the cursor with the current
    attribute and into no other cell; the cursor moves one column right, or
    to the start of the next row behind column 79.  In the bottom-right
    corner the screen scrolls at once: the byte ends in column 79 of row 23
    and the cursor in column 0 of row 24. *)
Theorem putchar_paints_cursor_cell (c : Z) (t : terminal) :
  printable c -> cursor_ok t -> length (terminal_buffer t) = 2000%nat ->
  (terminal_column t + 1 < VGA_WIDTH \/ terminal_row t + 1 < VGA_HEIGHT ->
   cell_at (terminal_putchar c t) (terminal_column t) (terminal_row t)
   = vga_entry c (terminal_color t) /\
   (forall x y, 0 <= x < VGA_WIDTH -> 0 <= y < VGA_HEIGHT ->
      ~ (x = terminal_column t /\ y = terminal_row t) ->
      cell_at (terminal_putchar c t) x y = cell_at t x y) /\
   terminal_row (terminal_putchar c t)
   = (if terminal_column t + 1 <? VGA_WIDTH then terminal_row t
      else terminal_row t + 1) /\
   terminal_column (terminal_putchar c t)
   = (if terminal_column t + 1 <? VGA_WIDTH then terminal_column t + 1 else 0))
  /\
  (terminal_column t = VGA_WIDTH - 1 -> terminal_row t = VGA_HEIGHT - 1 ->
   cell_at (terminal_putchar c t) (VGA_WIDTH - 1) (VGA_HEIGHT - 2)
   = vga_entry c (terminal_color t) /\
   terminal_row (terminal_putchar c t) = VGA_HEIGHT - 1 /\
   terminal_column (terminal_putchar c t) = 0).
Proof.
  intros Hp Hok Hlen. rewrite (putchar_printable c t Hp Hok). cbv zeta.
  destruct Hok as [Hr Hc]. unfold VGA_WIDTH, VGA_HEIGHT in *.
  assert (Hcell : forall x y, 0 <= x < 80 -> 0 <= y < 25 ->
            cell_get (cell_set (terminal_buffer t)
                        (terminal_row t * 80 + terminal_column t)
                        (vga_entry c (terminal_color t))) (y * 80 + x)
            = if decide (x = terminal_column t /\ y = terminal_row t)
              then vga_entry c (terminal_color t)
              else cell_get (terminal_buffer t) (y * 80 + x)).
  { intros x y Hx Hy. unfold cell_get, cell_set. rewrite nth_insert.
    destruct (decide (Z.to_nat _ = Z.to_nat _ /\ _)) as [[He _]|Hn];
      destruct (decide (x = _ /\ y = _)) as [[Hx' Hy']|Hn']; try reflexivity.
    - exfalso. apply Hn'. lia.
    - exfalso. apply Hn. subst. split; lia. }
  split.
  - intros Hroom.
    destruct (Z.ltb_spec (terminal_column t + 1) 80) as [Hlt | Hge].
    + unfold cell_at, VGA_WIDTH. cbn [terminal_buffer terminal_row terminal_column].
      split; [|split; [|split]]; try reflexivity.
      * rewrite Hcell by lia. destruct (decide _) as [_|Hn]; [reflexivity|].
        exfalso. apply Hn. split; reflexivity.
      * intros x y Hx Hy Hne. rewrite Hcell by lia.
        destruct (decide _) as [Hd|_]; [contradiction | reflexivity].
    + destruct (Z.ltb_spec (terminal_row t + 1) 25) as [Hlt | Hge']; [|lia].
      unfold cell_at, VGA_WIDTH. cbn [terminal_buffer terminal_row terminal_column].
      split; [|split; [|split]]; try reflexivity.
      * rewrite Hcell by lia. destruct (decide _) as [_|Hn]; [reflexivity|].
        exfalso. apply Hn. split; reflexivity.
      * intros x y Hx Hy Hne. rewrite Hcell by lia.
        destruct (decide _) as [Hd|_]; [contradiction | reflexivity].
  - intros Hcol Hrow. rewrite Hcol, Hrow.
    change (80 - 1 + 1 <? 80) with false. change (25 - 1 + 1 <? 25) with false.
    cbv iota. split; [|split; reflexivity].
    rewrite scroll_cell;
      [| cbn [terminal_buffer]; rewrite cell_set_length; exact Hlen
       | unfold VGA_WIDTH; lia | unfold VGA_HEIGHT; lia].
    unfold cell_at, VGA_WIDTH. cbn [terminal_buffer].
    rewrite <- Hcol, <- Hrow.
    replace (25 - 2 + 1) with (terminal_row t) by lia.
    replace (80 - 1) with (terminal_column t) by lia.
    rewrite Hcell by lia. destruct (decide _) as [_|Hn]; [reflexivity|].
    exfalso. apply Hn. split; reflexivity.
Qed.

End Painting.

Section Lines.
Import VGA Multiboot Kernel Blocks Lib.

Lemma puts_within_line (l : list Z) :
  forall t,
    cursor_ok t -> length (terminal_buffer t) = 2000%nat ->
    (forall c, In c l -> printable c) ->
    terminal_column t + Z.of_nat (length l) < VGA_WIDTH ->
    terminal_row (puts l t) = terminal_row t /\
    terminal_column (puts l t) = terminal_column t + Z.of_nat (length l) /\
    length (terminal_buffer (puts l t)) = 2000%nat /\
    forall j,
      nth j (terminal_buffer (puts l t)) 0
      = if (Z.to_nat (terminal_row t * 80 + terminal_column t) <=? j)%nat
        then if (j <? Z.to_nat (terminal_row t * 80 + terminal_column t)
                      + length l)%nat
             then vga_entry
                    (nth (j - Z.to_nat (terminal_row t * 80 + terminal_column t)) l 0)
                    (terminal_color t)
             else nth j (terminal_buffer t) 0
        else nth j (terminal_buffer t) 0.
Proof.
  induction l as [|c l IH]; intros t Hok Hlen Hp Hcol.
  - cbn [puts foldl length]. split; [reflexivity|]. split; [lia|].
    split; [exact Hlen|]. intros j. case_bounds.
  - change (puts (c :: l) t) with (puts l (terminal_putchar c t)).
    assert (Hpc : printable c) by (apply Hp; left; reflexivity).
    pose proof (putchar_printable c t Hpc Hok) as Hput. cbv zeta in Hput.
    destruct Hok as [Hr Hc]. unfold VGA_WIDTH, VGA_HEIGHT in *.
    cbn [length] in Hcol.
    destruct (Z.ltb_spec (terminal_column t + 1) 80) as [_|]; [|lia].
    rewrite Hput.
    match goal with
    | |- context [puts l ?t1] =>
        destruct (IH t1) as (Hrow & Hcl & Hln & Hnth)
    end.
    + unfold cursor_ok, VGA_WIDTH, VGA_HEIGHT. cbn [terminal_row terminal_column]. lia.
    + cbn [terminal_buffer]. rewrite cell_set_length. exact Hlen.
    + intros c' Hc'. apply Hp. right. exact Hc'.
    + cbn [terminal_column]. lia.
    + cbn [terminal_row terminal_column terminal_color terminal_buffer] in *.
      split; [exact Hrow|]. split; [cbn [length]; lia|]. split; [exact Hln|].
      intros j. rewrite Hnth. unfold cell_set. rewrite nth_insert.
      replace (Z.to_nat (terminal_row t * 80 + (terminal_column t + 1)))
        with (S (Z.to_nat (terminal_row t * 80 + terminal_column t))) by lia.
      set (k := Z.to_nat (terminal_row t * 80 + terminal_column t)).
      assert (Hk : (k < 2000)%nat) by (subst k; lia).
      cbn [length].
      destruct (decide (k = j /\ (k < length (terminal_buffer t))%nat))
        as [[He _]|Hn].
      * subst j. replace (k - k)%nat with 0%nat by lia. cbn [nth]. case_bounds.
      * assert (j <> k) by (intros ->; apply Hn; split; [reflexivity | lia]).
        repeat match goal with
               | |- context [(?a <? ?b)%nat] => destruct (Nat.ltb_spec a b)
               | |- context [(?a <=? ?b)%nat] => destruct (Nat.leb_spec a b)
               end;
          first [ lia | reflexivity
                | replace (j - k)%nat with (S (j - S k)) by lia; reflexivity ].
Qed.

Lemma chars_length (data : cptr) (n : Z) : length (chars data n) = Z.to_nat n.
Proof. unfold chars. rewrite length_map, length_seq. reflexivity. Qed.

Lemma chars_nth (data : cptr) (n : Z) (i : nat) :
  (i < Z.to_nat n)%nat -> nth i (chars data n) 0 = data (Z.of_nat i).
Proof.
  intros H. unfold chars.
  transitivity ((fun i => data (Z.of_nat i)) (nth i (seq 0 (Z.to_nat n)) 0%nat)).
  - rewrite <- (map_nth (fun i => data (Z.of_nat i)) (seq 0 (Z.to_nat n)) 0%nat i).
    apply nth_indep.
    rewrite length_map, length_seq. exact H.
  - cbv beta. rewrite seq_nth by exact H. reflexivity.
Qed.

(** X7: [terminal_write] of [n] painted bytes that fit behind the cursor in
    its row puts them, in order and with the current attribute, into the
    [n] cells from the cursor on, leaves every other cell alone, keeps the
    row and moves the cursor [n] columns to the right. *)
Theorem write_within_line (data : cptr) (n : Z) (t : terminal) :
  cursor_ok t -> length (terminal_buffer t) = 2000%nat ->
  0 <= n -> (forall i, 0 <= i < n -> printable (data i)) ->
  terminal_column t + n < VGA_WIDTH ->
  terminal_row (terminal_write data n t) = terminal_row t /\
  terminal_column (terminal_write data n t) = terminal_column t + n /\
  (forall i, 0 <= i < n ->
     cell_at (terminal_write data n t) (terminal_column t + i) (terminal_row t)
     = vga_entry (data i) (terminal_color t)) /\
  (forall x y, 0 <= x < VGA_WIDTH -> 0 <= y < VGA_HEIGHT ->
     ~ (y = terminal_row t /\ terminal_column t <= x < terminal_column t + n) ->
     cell_at (terminal_write data n t) x y = cell_at t x y).
Proof.
  intros Hok Hlen Hn Hp Hcol. rewrite terminal_write_puts.
  destruct (puts_within_line (chars data n) t Hok Hlen)
    as (Hrow & Hcl & _ & Hnth).
  - intros c Hc. unfold chars in Hc. apply in_map_iff in Hc.
    destruct Hc as (i & <- & Hi). apply in_seq in Hi. apply Hp. lia.
  - rewrite chars_length. lia.
  - rewrite chars_length in *. destruct Hok as [Hr Hc].
    unfold VGA_WIDTH, VGA_HEIGHT in *.
    split; [exact Hrow|]. split; [lia|]. unfold cell_at, cell_get, VGA_WIDTH.
    split.
    + intros i Hi. rewrite Hnth.
      destruct (Nat.leb_spec (Z.to_nat (terminal_row t * 80 + terminal_column t))
                  (Z.to_nat (terminal_row t * 80 + (terminal_column t + i))));
        [|lia].
      destruct (Nat.ltb_spec
                  (Z.to_nat (terminal_row t * 80 + (terminal_column t + i)))
                  (Z.to_nat (terminal_row t * 80 + terminal_column t) + Z.to_nat n));
        [|lia].
      rewrite chars_nth by lia. f_equal. f_equal. lia.
    + intros x y Hx Hy Hout. rewrite Hnth.
      destruct (Nat.leb_spec (Z.to_nat (terminal_row t * 80 + terminal_column t))
                  (Z.to_nat (y * 80 + x))); [|reflexivity].
      destruct (Nat.ltb_spec (Z.to_nat (y * 80 + x))
                  (Z.to_nat (terminal_row t * 80 + terminal_column t) + Z.to_nat n));
        [|reflexivity].
      exfalso. apply Hout. lia.
Qed.

End Lines.

Section Strings.
Import VGA Multiboot Kernel Blocks Lib.

Lemma wrap64_range (z : Z) : 0 <= wrap64 z < 2 ^ 64.
Proof. unfold wrap64. apply Z.mod_pos_bound. lia. Qed.

Lemma scan_len_no_nul (data : cptr) (fuel : nat) :
  (forall i, 0 <= i < 2 ^ 64 -> data i <> 0) ->
  forall k, 0 <= k < 2 ^ 64 -> scan_len fuel data k = None.
Proof.
  intros Hnz. induction fuel as [|fuel IH]; intros k Hk; [reflexivity|].
  cbn [scan_len]. destruct (Z.eqb_spec (data k) 0) as [E|_].
  - exfalso. apply (Hnz k Hk E).
  - apply IH, wrap64_range.
Qed.

Lemma scan_len_sound (data : cptr) (fuel : nat) :
  forall k n,
    0 <= k < 2 ^ 64 ->
    (forall i, 0 <= i < k -> data i <> 0) ->
    scan_len fuel data k = Some n ->
    k <= n < 2 ^ 64 /\ data n = 0 /\ forall i, 0 <= i < n -> data i <> 0.
Proof.
  induction fuel as [|fuel IH]; intros k n Hk Hnz H; [discriminate|].
  cbn [scan_len] in H. destruct (Z.eqb_spec (data k) 0) as [E|E].
  - injection H as <-. split; [lia|]. split; [exact E | exact Hnz].
  - destruct (Z.eq_dec (k + 1) (2 ^ 64)) as [Hw|Hw].
    + rewrite scan_len_no_nul in H; [discriminate | | apply wrap64_range].
      intros i Hi. destruct (Z.eq_dec i k) as [-> | Hik]; [exact E|].
      apply Hnz. lia.
    + rewrite wrap64_small in H by lia.
      destruct (IH (k + 1) n) as (Hn & Hz & Hall); [lia | | exact H |].
      * intros i Hi. destruct (Z.eq_dec i k) as [-> | Hik]; [exact E|].
        apply Hnz. lia.
      * split; [lia|]. split; [exact Hz | exact Hall].
Qed.

(** X10: [strlen] returns the offset of the first NUL byte: when it returns
    [n], byte [n] is NUL and no byte before it is; and when the first NUL is
    at offset [n], it returns [n]. *)
Theorem strlen_first_nul (str : cptr) (n : Z) :
  (forall fuel, strlen fuel str = Some n ->
     0 <= n < 2 ^ 64 /\ str n = 0 /\ forall i, 0 <= i < n -> str i <> 0) /\
  (0 <= n < 2 ^ 64 -> str n = 0 -> (forall i, 0 <= i < n -> str i <> 0) ->
   forall fuel, (Z.to_nat n < fuel)%nat -> strlen fuel str = Some n).
Proof.
  split.
  - intros fuel H. unfold strlen in H.
    destruct (scan_len_sound str fuel 0 n) as (Hn & Hz & Hall);
      [lia | intros i Hi; lia | exact H |].
    split; [lia|]. split; [exact Hz | exact Hall].
  - intros Hn Hz Hall fuel Hfuel. unfold strlen.
    apply scan_len_first; try lia; assumption.
Qed.

Lemma strcmp_loop_first_difference (s1 s2 : cptr) (n : Z) (fuel : nat) :
  forall i, 0 <= i <= n ->
    (forall j, i <= j < n -> s1 j <> 0 /\ s1 j = s2 j) ->
    s1 n = 0 \/ s1 n <> s2 n ->
    (Z.to_nat (n - i) < fuel)%nat ->
    strcmp_loop fuel s1 s2 i = Some (s1 n - s2 n).
Proof.
  induction fuel as [|fuel IH]; intros i Hi Hsame Hstop Hfuel; [lia|].
  cbn [strcmp_loop]. destruct (Z.eq_dec i n) as [-> | Hne].
  - destruct Hstop as [Hz | Hd].
    + rewrite Hz. reflexivity.
    + apply Z.eqb_neq in Hd. rewrite Hd, andb_false_r. reflexivity.
  - destruct (Hsame i ltac:(lia)) as [Hnz He].
    apply Z.eqb_neq in Hnz. apply Z.eqb_eq in He. rewrite Hnz, He.
    cbn [negb andb]. apply IH; try lia; try assumption.
    intros j Hj. apply Hsame. lia.
Qed.

Lemma strcmp_loop_zero (s1 s2 : cptr) (fuel : nat) :
  forall i, 0 <= i -> strcmp_loop fuel s1 s2 i = Some 0 ->
    exists n, i <= n /\ s1 n = 0 /\ s2 n = 0
              /\ forall j, i <= j < n -> s1 j <> 0 /\ s1 j = s2 j.
Proof.
  induction fuel as [|fuel IH]; intros i Hi H; [discriminate|].
  cbn [strcmp_loop] in H.
  destruct (Z.eqb_spec (s1 i) 0) as [Hz|Hnz]; cbn [negb andb] in H.
  - injection H as H. exists i. split; [lia|]. split; [exact Hz|].
    split; [lia|]. intros j Hj. lia.
  - destruct (Z.eqb_spec (s1 i) (s2 i)) as [He|Hd].
    + destruct (IH (i + 1) ltac:(lia) H) as (n & Hn & H1 & H2 & Hall).
      exists n. split; [lia|]. split; [exact H1|]. split; [exact H2|].
      intros j Hj. destruct (Z.eq_dec j i) as [-> | Hji]; [split; assumption|].
      apply Hall. lia.
    + injection H as H. lia.
Qed.

Lemma strcmp_loop_swap (s1 s2 : cptr) (fuel : nat) :
  forall i, strcmp_loop fuel s2 s1 i = Z.opp <$> strcmp_loop fuel s1 s2 i.
Proof.
  induction fuel as [|fuel IH]; intros i; [reflexivity|].
  cbn [strcmp_loop].
  destruct (Z.eqb_spec (s1 i) (s2 i)) as [He|Hd].
  - rewrite <- He, Z.eqb_refl.
    destruct (negb (s1 i =? 0)); cbn [andb]; [apply IH|].
    cbn. f_equal. lia.
  - destruct (Z.eqb_spec (s2 i) (s1 i)) as [He'|_]; [congruence|].
    rewrite !andb_false_r. cbn. f_equal. lia.
Qed.

(** X11: [strcmp] returns the difference of the bytes at the first offset
    where the strings differ or the first one ends; it returns 0 exactly
    when both strings hold the same bytes up to a common NUL. *)
Theorem strcmp_first_difference (s1 s2 : cptr) :
  (forall n fuel,
      0 <= n ->
      (forall j, 0 <= j < n -> s1 j <> 0 /\ s1 j = s2 j) ->
      s1 n = 0 \/ s1 n <> s2 n ->
      (Z.to_nat n < fuel)%nat ->
      strcmp fuel s1 s2 = Some (s1 n - s2 n)) /\
  (forall fuel,
      strcmp fuel s1 s2 = Some 0 ->
      exists n, 0 <= n /\ s1 n = 0 /\ s2 n = 0
                /\ forall j, 0 <= j < n -> s1 j <> 0 /\ s1 j = s2 j).
Proof.
  split.
  - intros n fuel Hn Hsame Hstop Hfuel. unfold strcmp.
    apply strcmp_loop_first_difference; try assumption; lia.
  - intros fuel H. apply (strcmp_loop_zero s1 s2 fuel 0); [lia | exact H].
Qed.

(** X12: exchanging the arguments of [strcmp] negates the result. *)
Theorem strcmp_swap (fuel : nat) (s1 s2 : cptr) :
  strcmp fuel s2 s1 = Z.opp <$> strcmp fuel s1 s2.
Proof. unfold strcmp. apply strcmp_loop_swap. Qed.

End Strings.

Section Memory.
Import VGA Multiboot Kernel Blocks Lib.

Lemma wrap8_idem (z : Z) : wrap8 (wrap8 z) = wrap8 z.
Proof. unfold wrap8. apply Z.mod_mod. lia. Qed.

Lemma wrap64_idem (z : Z) : wrap64 (wrap64 z) = wrap64 z.
Proof. unfold wrap64. apply Z.mod_mod. lia. Qed.

Lemma wrap64_inj (a b : Z) :
  wrap64 a = wrap64 b -> - 2 ^ 64 < a - b < 2 ^ 64 -> a = b.
Proof.
  unfold wrap64. intros H Hd.
  pose proof (Z.div_mod a (2 ^ 64) ltac:(lia)).
  pose proof (Z.div_mod b (2 ^ 64) ltac:(lia)).
  assert (a / 2 ^ 64 = b / 2 ^ 64) by nia. lia.
Qed.

Lemma store8_same (mem : memory) (addr v : Z) :
  store8 mem addr v (wrap64 addr) = wrap8 v.
Proof. unfold store8. rewrite Z.eqb_refl. reflexivity. Qed.

Lemma store8_other (mem : memory) (addr v a : Z) :
  a <> wrap64 addr -> store8 mem addr v a = mem a.
Proof. unfold store8. intros H. apply Z.eqb_neq in H. rewrite H. reflexivity. Qed.

(** X16: [memset] leaves [(uint8_t)c] in each of the [n] bytes from [s] on
    and changes no other byte of memory. *)
Theorem memset_fills (s c n : Z) (mem : memory) :
  (forall i, 0 <= i < n -> load8 (memset s c n mem) (s + i) = wrap8 c) /\
  (forall a, (forall i, 0 <= i < n -> a <> wrap64 (s + i)) ->
             memset s c n mem a = mem a).
Proof.
  unfold memset.
  assert (H : (forall i, 0 <= i < Z.of_nat (Z.to_nat n) ->
                 for_range 0 (Z.to_nat n) (fun i m => store8 m (s + i) c) mem
                   (wrap64 (s + i)) = wrap8 c) /\
              (forall a, (forall i, 0 <= i < Z.of_nat (Z.to_nat n) ->
                                    a <> wrap64 (s + i)) ->
                 for_range 0 (Z.to_nat n) (fun i m => store8 m (s + i) c) mem a
                 = mem a)).
  { apply (for_range_ind (fun k m =>
      (forall i, 0 <= i < Z.of_nat k -> m (wrap64 (s + i)) = wrap8 c) /\
      (forall a, (forall i, 0 <= i < Z.of_nat k -> a <> wrap64 (s + i)) ->
                 m a = mem a))); [lia | |].
    - split; [intros i Hi; lia | intros a _; reflexivity].
    - intros k m Hk [Hin Hout]. split.
      + intros i Hi.
        destruct (Z.eq_dec (wrap64 (s + i)) (wrap64 (s + Z.of_nat k))) as [E|E].
        * rewrite E. apply store8_same.
        * rewrite store8_other by exact E. apply Hin.
          assert (i <> Z.of_nat k) by (intros ->; apply E; reflexivity). lia.
      + intros a Ha. rewrite store8_other by (apply Ha; lia).
        apply Hout. intros i Hi. apply Ha. lia. }
  destruct H as [Hin Hout]. split.
  - intros i Hi. unfold load8. rewrite Hin by lia. apply wrap8_idem.
  - intros a Ha. apply Hout. intros i Hi. apply Ha. lia.
Qed.

(** The copy loop: once it is through, destination byte [i] holds what
    source byte [i] held at the start, and nothing else has changed. *)
Lemma memcpy_loop (dest src n : Z) (mem : memory) :
  0 <= n <= 2 ^ 64 ->
  (forall i j, 0 <= j < i -> i < n -> wrap64 (dest + j) <> wrap64 (src + i)) ->
  (forall i, 0 <= i < Z.of_nat (Z.to_nat n) ->
     memcpy dest src n mem (wrap64 (dest + i)) = load8 mem (src + i)) /\
  (forall a, (forall i, 0 <= i < Z.of_nat (Z.to_nat n) -> a <> wrap64 (dest + i)) ->
     memcpy dest src n mem a = mem a).
Proof.
  intros Hn Hsafe. unfold memcpy.
  apply (for_range_ind (fun k m =>
    (forall i, 0 <= i < Z.of_nat k -> m (wrap64 (dest + i)) = load8 mem (src + i)) /\
    (forall a, (forall i, 0 <= i < Z.of_nat k -> a <> wrap64 (dest + i)) ->
               m a = mem a))); [lia | |].
  - split; [intros i Hi; lia | intros a _; reflexivity].
  - intros k m Hk [Hin Hout].
    assert (Hread : load8 m (src + Z.of_nat k) = load8 mem (src + Z.of_nat k)).
    { unfold load8. f_equal. apply Hout. intros i Hi E.
      apply (Hsafe (Z.of_nat k) i); [lia | lia |]. symmetry. exact E. }
    rewrite Hread. split.
    + intros i Hi. destruct (Z.eq_dec i (Z.of_nat k)) as [-> | Hik].
      * rewrite store8_same. unfold load8. apply wrap8_idem.
      * rewrite store8_other; [apply Hin; lia|].
        intros E. apply Hik. apply wrap64_inj in E; lia.
    + intros a Ha. rewrite store8_other by (apply Ha; lia).
      apply Hout. intros i Hi. apply Ha. lia.
Qed.

(** X13: [memcpy] copies correctly whenever no source byte is overwritten
    before it is read: byte [i] of the destination then holds what byte
    [i] of the source held, and no byte outside the destination changes. *)
Theorem memcpy_copies (dest src n : Z) (mem : memory) :
  0 <= n <= 2 ^ 64 ->
  (forall i j, 0 <= j < i -> i < n -> wrap64 (dest + j) <> wrap64 (src + i)) ->
  (forall i, 0 <= i < n ->
     load8 (memcpy dest src n mem) (dest + i) = load8 mem (src + i)) /\
  (forall a, (forall i, 0 <= i < n -> a <> wrap64 (dest + i)) ->
             memcpy dest src n mem a = mem a).
Proof.
  intros Hn Hsafe.
  destruct (memcpy_loop dest src n mem Hn Hsafe) as [Hin Hout]. split.
  - intros i Hi. unfold load8 at 1. rewrite Hin by lia.
    unfold load8. apply wrap8_idem.
  - intros a Ha. apply Hout. intros i Hi. apply Ha. lia.
Qed.

(** X14: in particular [memcpy] to a lower address is right even when the
    two ranges overlap. *)
Theorem memcpy_downwards (dest src n : Z) (mem : memory) (i : Z) :
  0 <= dest <= src -> 0 <= n -> src + n <= 2 ^ 64 -> 0 <= i < n ->
  load8 (memcpy dest src n mem) (dest + i) = load8 mem (src + i).
Proof.
  intros Hd Hn Hs Hi.
  destruct (memcpy_loop dest src n mem) as [Hin _]; [lia | |].
  - intros i' j Hj Hi' E. rewrite !wrap64_small in E by lia. lia.
  - unfold load8 at 1. rewrite Hin by lia. unfold load8. apply wrap8_idem.
Qed.

(** X15: [memcpy] one byte upwards within the same range is not a move: the
    first source byte is repeated through the whole destination. *)
Theorem memcpy_upwards_smears (p n : Z) (mem : memory) (i : Z) :
  0 <= p -> 0 <= n -> p + n < 2 ^ 64 -> 0 <= i < n ->
  load8 (memcpy (p + 1) p n mem) (p + 1 + i) = load8 mem p.
Proof.
  intros Hp Hn Hpn Hi. unfold memcpy.
  assert (H : forall i, 0 <= i <= Z.of_nat (Z.to_nat n) ->
                wrap8 (for_range 0 (Z.to_nat n)
                         (fun i m => store8 m (p + 1 + i) (load8 m (p + i))) mem
                         (p + i)) = load8 mem p).
  { apply (for_range_ind (fun k m =>
      forall i, 0 <= i <= Z.of_nat k -> wrap8 (m (p + i)) = load8 mem p));
      [lia | |].
    - intros j Hj. replace j with 0 by lia.
      unfold load8. rewrite Z.add_0_r, wrap64_small by lia. reflexivity.
    - intros k m Hk Hm j Hj.
      destruct (Z.eq_dec j (Z.of_nat k + 1)) as [-> | Hjk].
      + replace (p + (Z.of_nat k + 1)) with (wrap64 (p + 1 + Z.of_nat k))
          by (rewrite wrap64_small by lia; lia).
        rewrite store8_same, wrap8_idem.
        unfold load8 at 1. rewrite wrap64_small by lia.
        rewrite wrap8_idem. apply Hm. lia.
      + rewrite store8_other by (rewrite wrap64_small by lia; lia).
        apply Hm. lia. }
  unfold load8 at 1. rewrite wrap64_small by lia.
  replace (p + 1 + i) with (p + (i + 1)) by lia. apply H. lia.
Qed.

End Memory.

Section Safety.
Import VGA Multiboot Kernel Blocks Lib.

Lemma map_seq_from {A : Type} (f : nat -> A) (a b : nat) :
  map f (seq a b) = map (fun i => f (a + i)%nat) (seq 0 b).
Proof.
  induction b as [|b IH]; [reflexivity|].
  rewrite !seq_S, !map_app, IH. reflexivity.
Qed.

(** X8: a [terminal_write] of [n + m] bytes is the write of the first [n]
    followed by the write of the other [m]. *)
Theorem write_splits (data : cptr) (n m : Z) (t : terminal) :
  0 <= n -> 0 <= m ->
  terminal_write data (n + m) t
  = terminal_write (fun i => data (n + i)) m (terminal_write data n t).
Proof.
  intros Hn Hm. rewrite !terminal_write_puts, <- puts_app. f_equal.
  unfold chars. rewrite Z2Nat.inj_add by lia.
  rewrite seq_app, map_app. f_equal.
  rewrite map_seq_from. apply map_ext. intros i. f_equal. lia.
Qed.




(** X20: what the parser prints, and whether it returns, depends on the
    memory alone, not on the terminal it prints to. *)
Theorem parser_text_ignores_terminal (fuel : nat) (mem : memory) (addr : Z) :
  (exists out, forall t,
      parse_multiboot_info fuel mem addr t = Some (puts out t)) \/
  (forall t, parse_multiboot_info fuel mem addr t = None).
Proof.
  destruct (parse_output fuel mem addr) as [out|] eqn:E.
  - left. exists out. intros t. rewrite parse_output_correct, E. reflexivity.
  - right. intros t. rewrite parse_output_correct, E. reflexivity.
Qed.





End Safety.

Section TagSteps.
Import VGA Multiboot Kernel Blocks Lib.

(** X18: a tag of a type other than 0 whose size field is 0, or above
    [2 ^ 32 - 8], moves the cursor by 0 bytes: parsing stays on it and does
    not return. *)
Theorem zero_step_tag_hangs (fuel : nat) (mem : memory) (tag : Z) (t : terminal) :
  0 <= tag < 2 ^ 64 -> tag_type mem tag <> 0 ->
  tag_size mem tag = 0 \/ 2 ^ 32 - 7 <= tag_size mem tag ->
  next_tag mem tag = tag /\ tag_loop fuel mem tag t = None.
Proof.
  intros Htag Hty Hsz.
  assert (Hnext : next_tag mem tag = tag).
  { destruct Hsz as [H0 | Hbig].
    - rewrite next_tag_short by lia. rewrite H0. cbn [Z.eqb].
      rewrite Z.add_0_r. apply wrap64_small, Htag.
    - unfold next_tag.
      pose proof (load32_range mem (tag + 4)) as Hr.
      fold (tag_size mem tag) in Hr. unfold wrap32.
      replace ((tag_size mem tag + 7) mod 2 ^ 32)
        with (tag_size mem tag + 7 - 2 ^ 32)
        by (apply Z.mod_unique with 1; lia).
      change (2 ^ 32 - 8) with (2 ^ 32 - 2 ^ 3).
      rewrite land_high_mask by lia.
      rewrite Z.div_small by lia. rewrite Z.mul_0_r, Z.add_0_r.
      apply wrap64_small, Htag. }
  split; [exact Hnext|].
  rewrite loop_output_correct, loop_output_never; [reflexivity|].
  intros k. rewrite walk_fixed by exact Hnext. exact Hty.
Qed.

(** X9: [terminal_writestring] prints the bytes in front of the first NUL
    and nothing else; what lies behind that NUL has no influence. *)
Theorem writestring_stops_at_nul (fuel : nat) (data : cptr) (n : Z) (t : terminal) :
  0 <= n < 2 ^ 64 -> data n = 0 -> (forall i, 0 <= i < n -> data i <> 0) ->
  (Z.to_nat n < fuel)%nat ->
  terminal_writestring fuel data t = Some (terminal_write data n t) /\
  forall data' : cptr,
    (forall i, 0 <= i <= n -> data' i = data i) ->
    terminal_writestring fuel data' t = terminal_writestring fuel data t.
Proof.
  intros Hn Hz Hnz Hfuel.
  assert (H : forall d : cptr,
            (forall i, 0 <= i <= n -> d i = data i) ->
            terminal_writestring fuel d t = Some (puts (chars data n) t)).
  { intros d Hd. rewrite writestring_string_at.
    rewrite (string_at_first fuel d n); try assumption.
    - cbn. rewrite (chars_ext d data n); [reflexivity|].
      intros i Hi. apply Hd. lia.
    - intros i Hi. rewrite Hd by lia. apply Hnz, Hi.
    - rewrite Hd by lia. exact Hz. }
  split.
  - rewrite terminal_write_puts. apply H. intros i _. reflexivity.
  - intros data' Hd. rewrite (H data' Hd). symmetry.
    apply H. intros i _. reflexivity.
Qed.

End TagSteps.

Section Witnesses.
Import VGA Multiboot Kernel Blocks Lib.

Lemma tab_stop_next_multiple_witness : tab_stop 5 = 4 * (5 / 4 + 1).
Proof. exact (proj1 (tab_stop_next_multiple 5 ltac:(lia))). Defined.

Lemma next_tag_rounds_up_witness :
  next_tag (image base (boot_block 639 130048)) (base + 8)
  = wrap64 (base + 8
            + 8 * ((tag_size (image base (boot_block 639 130048)) (base + 8) + 7) / 8)).
Proof.
  refine (proj1 (next_tag_rounds_up (image base (boot_block 639 130048))
                   (base + 8) _)).
  vm_compute. reflexivity.
Defined.

Lemma zero_step_tag_hangs_witness :
  tag_loop 64 (image base stuck_block) (base + 8) blank = None.
Proof.
  refine (proj2 (zero_step_tag_hangs 64 (image base stuck_block) (base + 8)
                   blank _ _ _)).
  - vm_compute. split; [discriminate | reflexivity].
  - vm_compute. discriminate.
  - left. vm_compute. reflexivity.
Defined.

Lemma initialize_clears_screen_witness :
  terminal_initialize (terminal_putchar 65 blank) = blank.
Proof.
  refine (initialize_clears_screen (terminal_putchar 65 blank) _).
  vm_compute. reflexivity.
Defined.

Lemma blank_cursor_ok : cursor_ok blank.
Proof.
  unfold cursor_ok. split; split; vm_compute; first [discriminate | reflexivity].
Qed.

Lemma putchar_paints_cursor_cell_witness :
  cell_at (terminal_putchar 65 blank) (terminal_column blank) (terminal_row blank)
  = vga_entry 65 (terminal_color blank).
Proof.
  assert (Hp : printable 65) by (split; discriminate).
  assert (Hlen : length (terminal_buffer blank) = 2000%nat)
    by (vm_compute; reflexivity).
  assert (Hroom : terminal_column blank + 1 < VGA_WIDTH
                  \/ terminal_row blank + 1 < VGA_HEIGHT)
    by (left; vm_compute; reflexivity).
  exact (proj1 (proj1 (putchar_paints_cursor_cell 65 blank Hp blank_cursor_ok Hlen)
                  Hroom)).
Defined.

Lemma write_within_line_witness :
  terminal_column (terminal_write (lit "OK") 2 blank) = terminal_column blank + 2.
Proof.
  assert (Hlen : length (terminal_buffer blank) = 2000%nat)
    by (vm_compute; reflexivity).
  assert (Hp : forall i, 0 <= i < 2 -> printable (lit "OK" i)).
  { intros i Hi. assert (Hc : i = 0 \/ i = 1) by lia.
    destruct Hc as [-> | ->]; split; vm_compute; discriminate. }
  assert (Hcol : terminal_column blank + 2 < VGA_WIDTH) by (vm_compute; reflexivity).
  exact (proj1 (proj2 (write_within_line (lit "OK") 2 blank blank_cursor_ok Hlen
                         ltac:(lia) Hp Hcol))).
Defined.

Lemma write_splits_witness :
  terminal_write (lit "OK") (1 + 1) blank
  = terminal_write (fun i => lit "OK" (1 + i)) 1 (terminal_write (lit "OK") 1 blank).
Proof. exact (write_splits (lit "OK") 1 1 blank ltac:(lia) ltac:(lia)). Defined.

Lemma lit_abc_bytes (i : Z) : 0 <= i < 3 -> lit "abc" i <> 0.
Proof.
  intros Hi. assert (Hc : i = 0 \/ i = 1 \/ i = 2) by lia.
  destruct Hc as [-> | [-> | ->]]; vm_compute; discriminate.
Qed.

Lemma strlen_first_nul_witness : strlen 8 (lit "abc") = Some 3.
Proof.
  refine (proj2 (strlen_first_nul (lit "abc") 3) _ _ lit_abc_bytes 8%nat _).
  - lia.
  - vm_compute. reflexivity.
  - vm_compute. lia.
Defined.

Lemma strcmp_first_difference_witness :
  strcmp 8 (lit "abc") (lit "abd") = Some (lit "abc" 2 - lit "abd" 2).
Proof.
  refine (proj1 (strcmp_first_difference (lit "abc") (lit "abd")) 2 8%nat _ _ _ _).
  - lia.
  - intros j Hj. assert (Hc : j = 0 \/ j = 1) by lia.
    destruct Hc as [-> | ->]; split; vm_compute; first [discriminate | reflexivity].
  - right. vm_compute. discriminate.
  - vm_compute. lia.
Defined.

Lemma memset_fills_witness :
  load8 (memset 16 0 4 (image 0 (bytes_of "0123456789abcdefghij"))) (16 + 1)
  = wrap8 0.
Proof.
  exact (proj1 (memset_fills 16 0 4 (image 0 (bytes_of "0123456789abcdefghij")))
           1 ltac:(lia)).
Defined.

Lemma memcpy_copies_witness :
  load8 (memcpy 0 8 4 (image 0 (bytes_of "0123456789abcdefghij"))) (0 + 1)
  = load8 (image 0 (bytes_of "0123456789abcdefghij")) (8 + 1).
Proof.
  refine (proj1 (memcpy_copies 0 8 4 (image 0 (bytes_of "0123456789abcdefghij"))
                   _ _) 1 _).
  - lia.
  - intros i j Hj Hi E. rewrite !wrap64_small in E by lia. lia.
  - lia.
Defined.

Lemma memcpy_downwards_witness :
  load8 (memcpy 2 4 8 (image 0 (bytes_of "0123456789abcdefghij"))) (2 + 5)
  = load8 (image 0 (bytes_of "0123456789abcdefghij")) (4 + 5).
Proof.
  apply (memcpy_downwards 2 4 8 (image 0 (bytes_of "0123456789abcdefghij")) 5); lia.
Defined.

Lemma memcpy_upwards_smears_witness :
  load8 (memcpy (4 + 1) 4 8 (image 0 (bytes_of "0123456789abcdefghij"))) (4 + 1 + 5)
  = load8 (image 0 (bytes_of "0123456789abcdefghij")) 4.
Proof.
  apply (memcpy_upwards_smears 4 8 (image 0 (bytes_of "0123456789abcdefghij")) 5); lia.
Defined.



Lemma writestring_stops_at_nul_witness :
  terminal_writestring 8 (lit "abc") blank = Some (terminal_write (lit "abc") 3 blank).
Proof.
  refine (proj1 (writestring_stops_at_nul 8 (lit "abc") 3 blank _ _ lit_abc_bytes _)).
  - lia.
  - vm_compute. reflexivity.
  - vm_compute. lia.
Defined.

End Witnesses.
